(** * ClashVision win prediction engine: a shallow embedding

    The development embeds the two [WinPredictor] classes of the repository,
    [app/ml/predictor_simple.py] (the heuristic predictor, module
    [PredictorSimple]) and [app/ml/predictor.py] (the learned-model predictor,
    module [Predictor]), together with the statistics of
    [app/api/v1/endpoints/players_simple.py] (module [PlayersSimple]), and
    checks the properties of the prediction engine against them.

    Conventions of the embedding:
    - Python [int] is [Z]; Python [float] is an exact rational [Q] (rounding is
      abstracted, comparisons and the order of operations are kept).  The
      range of a float matters where two ints are divided: [Py.true_div]
      takes every quotient as a float, [Py.long_true_divide] raises
      [OverflowError] beyond the range, and module [Binary64] holds the
      methods and endpoints that divide, run with the latter;
    - a [dict] read with [.get(key, default)] is a [gmap string _]; a dict the
      code builds key by key is an association list in insertion order;
    - the ambient state the code reads (the [random] module's generator and
      the clock) is an explicit [world], threaded by the monad [Py], which
      also carries raised exceptions. *)

From Stdlib Require Import ZArith QArith Qabs Qminmax Lqa Lia List.
From Stdlib Require Import Ascii.
From stdpp Require Import base gmap strings pretty.
Import ListNotations.

Local Open Scope Q_scope.

(** ** The Python runtime the predictors rely on *)

Module Py.

Inductive exn : Type :=
| ValueError (msg : string)
| ZeroDivisionError (msg : string)
| TypeError (msg : string)
| IndexError (msg : string)
| OverflowError (msg : string).

Inductive res (A : Type) : Type :=
| Ok (a : A)
| Raise (e : exn).
Arguments Ok {A} a.
Arguments Raise {A} e.

Definition res_bind {A B} (c : res A) (k : A -> res B) : res B :=
  match c with
  | Ok a => k a
  | Raise e => Raise e
  end.

(** A comprehension whose element expression can raise: the elements are
    evaluated in order and the first exception ends it. *)
Fixpoint res_map {A B} (f : A -> res B) (xs : list A) : res (list B) :=
  match xs with
  | [] => Ok []
  | x :: xs' =>
      res_bind (f x) (fun y =>
        res_bind (res_map f xs') (fun ys => Ok (y :: ys)))
  end.

(** The generator of the [random] module is a tape of uniform draws from
    [0, 1) and a tape of integer draws, read at a common cursor; [clock] is
    what [datetime.utcnow().isoformat()] returns. *)
Record world : Type := mkWorld {
  float_tape : nat -> Q;
  int_tape : nat -> nat;
  cursor : nat;
  clock : string
}.

Definition advance (w : world) : world :=
  mkWorld (float_tape w) (int_tape w) (S (cursor w)) (clock w).

Definition M (A : Type) : Type := world -> res A * world.

Definition ret {A} (a : A) : M A := fun w => (Ok a, w).

Definition bind {A B} (c : M A) (k : A -> M B) : M B :=
  fun w =>
    match c w with
    | (Ok a, w') => k a w'
    | (Raise e, w') => (Raise e, w')
    end.

Definition raise {A} (e : exn) : M A := fun w => (Raise e, w).

Definition lift {A} (c : res A) : M A := fun w => (c, w).

(** [random.random()] *)
Definition random : M Q :=
  fun w => (Ok (float_tape w (cursor w)), advance w).

(** [random.uniform(a, b)] is [a + (b - a) * random()]; as a float the
    result can round to [b]. *)
Definition uniform (a b : Q) : M Q :=
  bind random (fun r => ret (a + (b - a) * r)).

Definition randbelow (n : nat) : M nat :=
  fun w => (Ok (int_tape w (cursor w) mod n)%nat, advance w).

(** [random.randint(a, b)] is [a + randbelow(b - a + 1)] *)
Definition randint (a b : Z) : M Z :=
  bind (randbelow (Z.to_nat (b - a + 1))) (fun k => ret (a + Z.of_nat k)%Z).

(** [random.choice(seq)] is [seq[randbelow(len(seq))]] *)
Definition choice {A} (seq : list A) : M A :=
  match seq with
  | [] => raise (IndexError "Cannot choose from an empty sequence")
  | _ =>
      bind (randbelow (length seq)) (fun k =>
        match nth_error seq k with
        | Some x => ret x
        | None => raise (IndexError "list index out of range")
        end)
  end.

(** [datetime.utcnow().isoformat()] *)
Definition utcnow_isoformat : M string := fun w => (Ok (clock w), w).

(** Comparison of floats, as [<] and [>] decide it. *)
Definition ltb (a b : Q) : bool := negb (Qle_bool b a).
Definition gtb (a b : Q) : bool := ltb b a.

(** Built-in [max(a, b)] and [min(a, b)]: the first argument is kept unless
    the second is strictly greater (smaller). *)
Definition max (a b : Q) : Q := if gtb b a then b else a.
Definition min (a b : Q) : Q := if ltb b a then b else a.

(** [a / b] on two ints is true division and gives a float.  [true_div]
    takes every quotient to be a float. *)
Definition true_div (a b : Z) : res Q :=
  if (b =? 0)%Z then Raise (ZeroDivisionError "division by zero")
  else Ok (inject_Z a / inject_Z b).

(** The range of a float.  The largest double is 2^1024 - 2^971; a magnitude
    of 2^1024 - 2^970 or more, half a unit in the last place above it, rounds
    out of the range. *)
Definition float_overflow : Z := (2 ^ 1024 - 2 ^ 970)%Z.

(** [a / b] on two ints as CPython computes it ([long_true_divide]): the
    quotient is rounded to the nearest double, and an [OverflowError] is
    raised when it rounds out of the range of a float. *)
Definition long_true_divide (a b : Z) : res Q :=
  if (b =? 0)%Z then Raise (ZeroDivisionError "division by zero")
  else if Qle_bool (inject_Z float_overflow) (Qabs (inject_Z a / inject_Z b))
  then Raise (OverflowError "integer division result too large for a float")
  else Ok (inject_Z a / inject_Z b).

(** [a / b] on floats. *)
Definition float_div (a b : Q) : res Q :=
  if Qeq_bool b 0 then Raise (ZeroDivisionError "float division by zero")
  else Ok (a / b).

(** [sum(xs)]: starts from 0 and adds from the left. *)
Definition sum (xs : list Q) : Q := fold_left Qplus xs 0.

(** [d.get(key, default)] *)
Definition get {V} (d : gmap string V) (key : string) (dflt : V) : V :=
  default dflt (d !! key).

(** A script of draws as a world: the tapes read the lists and are 0 past
    their end. *)
Definition scripted (floats : list Q) (ints : list nat) (now : string) : world :=
  mkWorld (fun i => nth i floats 0) (fun i => nth i ints 0%nat) 0 now.

End Py.

Notation "x <- c ;; k" := (Py.bind c (fun x => k))
  (at level 100, c at next level, right associativity).

(** A raw telemetry record (player snapshot, battle context): integer fields
    by name. *)
Abbreviation raw_dict := (gmap string Z).
(** A feature set: named numeric features. *)
Abbreviation feature_dict := (gmap string Q).

(** ** The result object both predictors return

    A key the code does not set is [None]. *)

Record battle_state : Type := mkBattleState {
  battle_time_remaining : Z;
  player_towers : Z;
  opponent_towers : Z;
  elixir_advantage : Z;
  current_phase : string
}.

Record prediction : Type := mkPrediction {
  win_probability : Q;
  confidence : Q;
  model_version : string;
  input_features : option feature_dict;
  influencing_factors : option (list (string * Q));
  battle_analysis : option battle_state;
  recommendations : list string;
  timestamp : string
}.

(** ** [app/ml/predictor_simple.py] *)

Module PredictorSimple.

Record WinPredictor : Type := mkWinPredictor {
  self_model_version : string;
  is_ready : bool;
  confidence_threshold : Q
}.

Definition __init__ : WinPredictor :=
  mkWinPredictor "1.0.0-simple" true 0.7.

Definition initialize (self : WinPredictor) : WinPredictor :=
  mkWinPredictor (self_model_version self) true (confidence_threshold self).

Definition extra_recommendations : list string :=
  [ "Cycle to your win condition";
    "Defend and counter-attack";
    "Build a strong push";
    "Use spells for maximum value";
    "Protect your towers" ].

Definition _generate_recommendations
    (win_probability : Q) (player_data : raw_dict) : Py.M (list string) :=
  let recommendations :=
    if Py.ltb win_probability 0.4 then
      [ "Focus on defensive plays";
        "Look for positive elixir trades";
        "Play more conservatively" ]
    else if Py.gtb win_probability 0.7 then
      [ "Maintain aggressive pressure";
        "Look for tower damage opportunities";
        "Keep up the momentum" ]
    else
      [ "Adapt to opponent's strategy";
        "Monitor elixir carefully";
        "Stay flexible with your approach" ] in
  extra <- Py.choice extra_recommendations ;;
  let recommendations := recommendations ++ [extra] in
  Py.ret (firstn 3 recommendations).

Definition _generate_live_recommendations
    (win_probability : Q) (battle_data : raw_dict) : list string :=
  let time_remaining := Py.get battle_data "time_remaining" 180%Z in
  let recommendations :=
    if (time_remaining >? 120)%Z then ["Learn opponent's deck rotation"]
    else if (time_remaining >? 60)%Z then ["Build your main push"]
    else ["Go for decisive plays"] in
  let recommendations :=
    if Py.gtb win_probability 0.6 then recommendations ++ ["Maintain pressure"]
    else recommendations ++ ["Focus on defense"] in
  recommendations ++ ["Watch your elixir management"].

Definition _determine_battle_phase (time_remaining : Z) : string :=
  if (time_remaining >? 120)%Z then "early_game"
  else if (time_remaining >? 60)%Z then "mid_game"
  else if (time_remaining >? 0)%Z then "late_game"
  else "overtime".

(** [predict], over the division [true_div] of two ints. *)
Definition predict_with (true_div : Z -> Z -> Py.res Q)
    (self : WinPredictor) (player_data : raw_dict)
    (opponent_data battle_context : option raw_dict) : Py.M prediction :=
  if negb (is_ready self) then Py.raise (Py.ValueError "Model not ready")
  else
    let player_trophies := Py.get player_data "trophies" 0%Z in
    let player_wins := Py.get player_data "wins" 0%Z in
    let player_losses := Py.get player_data "losses" 0%Z in
    win_rate <- Py.lift (true_div player_wins
                           (Z.max 1 (player_wins + player_losses))) ;;
    scaled <- Py.lift (true_div player_trophies 6000%Z) ;;
    let trophy_factor := Py.min 1.0 scaled in
    let base_probability := win_rate * 0.6 + trophy_factor * 0.4 in
    r <- Py.random ;;
    let win_probability :=
      Py.max 0.1 (Py.min 0.9 (base_probability + (r - 0.5) * 0.3)) in
    r' <- Py.random ;;
    let confidence := 0.6 + r' * 0.3 in
    deck_synergy <- Py.uniform 0.3 0.9 ;;
    elixir_efficiency <- Py.uniform 0.4 0.8 ;;
    opponent_counter <- Py.uniform 0.2 0.7 ;;
    recent_performance <- Py.uniform 0.3 0.8 ;;
    let influencing_factors :=
      [ ("deck_synergy", deck_synergy);
        ("elixir_efficiency", elixir_efficiency);
        ("opponent_counter", opponent_counter);
        ("player_skill", win_rate);
        ("recent_performance", recent_performance) ] in
    recommendations <- _generate_recommendations win_probability player_data ;;
    now <- Py.utcnow_isoformat ;;
    Py.ret
      (mkPrediction win_probability confidence (self_model_version self)
         (Some (<["player_trophies" := inject_Z player_trophies]>
                  (<["win_rate" := win_rate]>
                     (<["trophy_factor" := trophy_factor]> ∅))))
         (Some influencing_factors)
         None
         recommendations
         now).

(** [predict] with every quotient taken as a float; [Binary64.predict] below
    is the method with the range of a float. *)
Definition predict (self : WinPredictor) (player_data : raw_dict)
    (opponent_data battle_context : option raw_dict) : Py.M prediction :=
  predict_with Py.true_div self player_data opponent_data battle_context.

Definition predict_live (self : WinPredictor) (player_tag : string)
    (battle_data : raw_dict) : Py.M prediction :=
  r <- Py.random ;;
  let win_probability := 0.5 + (r - 0.5) * 0.6 in
  r' <- Py.random ;;
  let confidence := 0.6 + r' * 0.3 in
  elixir <- Py.randint (-2) 2 ;;
  let battle_analysis :=
    mkBattleState
      (Py.get battle_data "time_remaining" 180%Z)
      (Py.get battle_data "player_towers" 3%Z)
      (Py.get battle_data "opponent_towers" 3%Z)
      elixir
      (_determine_battle_phase (Py.get battle_data "time_remaining" 180%Z)) in
  let recommendations :=
    _generate_live_recommendations win_probability battle_data in
  now <- Py.utcnow_isoformat ;;
  Py.ret
    (mkPrediction win_probability confidence (self_model_version self)
       None None (Some battle_analysis) recommendations now).

End PredictorSimple.

(** ** Collaborators of [app/ml/predictor.py] outside the sources

    [FeatureEngineer] ([app.ml.feature_engineering]) and
    [TransformerLSTMModel] ([app.ml.model_architecture]) are imported by the
    predictor; only their call signatures are known.  A tensor is a nested
    list. *)

Class FeatureEngineer : Type := {
  extract_features : raw_dict -> option raw_dict -> option raw_dict -> feature_dict;
  extract_live_features : string -> raw_dict -> feature_dict;
  features_to_vector : feature_dict -> list Q
}.

Definition TransformerLSTMModel : Type := list (list (list Q)) -> list (list Q).

(** What [initialize] meets outside the predictor: the outcome of creating
    the model directory, whether the weight file exists, and the outcomes of
    the [try] blocks of [_load_model] and of [_create_new_model].  Both
    blocks assign [self.model = TransformerLSTMModel()] first and work on
    that object afterwards, so a block that raises leaves an object behind:
    [load_leaves] and [create_leaves] are the objects the blocks have
    assigned when they raise, [None] when the constructor itself raised. *)
Record model_store : Type := mkModelStore {
  makedirs : Py.res unit;
  model_file_exists : bool;
  load_weights : Py.res TransformerLSTMModel;
  create_model : Py.res TransformerLSTMModel;
  load_leaves : option TransformerLSTMModel;
  create_leaves : option TransformerLSTMModel
}.

(** ** [app/ml/predictor.py] *)

Module Predictor.

Record WinPredictor : Type := mkWinPredictor {
  model : option TransformerLSTMModel;
  self_model_version : string;
  is_ready : bool;
  confidence_threshold : Q
}.

(** [settings.PREDICTION_CONFIDENCE_THRESHOLD] is an argument. *)
Definition __init__ (threshold : Q) : WinPredictor :=
  mkWinPredictor None "1.0.0" false threshold.

(** [self.model = m] and [self.is_ready = b] *)
Definition set_model (self : WinPredictor) (m : TransformerLSTMModel)
    : WinPredictor :=
  mkWinPredictor (Some m) (self_model_version self) (is_ready self)
    (confidence_threshold self).

Definition set_is_ready (self : WinPredictor) (b : bool) : WinPredictor :=
  mkWinPredictor (model self) (self_model_version self) b
    (confidence_threshold self).

(** The predictor a [try] block leaves when it raises: [self.model] is the
    object the block had assigned, or is untouched. *)
Definition left_with (self : WinPredictor) (m : option TransformerLSTMModel)
    : WinPredictor :=
  match m with
  | Some m => set_model self m
  | None => self
  end.

(** The methods mutate [self]: they return the predictor they leave with
    their outcome.  [_create_new_model] raises again what its block raised. *)
Definition _create_new_model (store : model_store) (self : WinPredictor)
    : WinPredictor * Py.res unit :=
  match create_model store with
  | Py.Ok m => (set_model self m, Py.Ok tt)
  | Py.Raise e => (left_with self (create_leaves store), Py.Raise e)
  end.

(** A failed load falls back to a new model. *)
Definition _load_model (store : model_store) (self : WinPredictor)
    : WinPredictor * Py.res unit :=
  match load_weights store with
  | Py.Ok m => (set_model self m, Py.Ok tt)
  | Py.Raise _ => _create_new_model store (left_with self (load_leaves store))
  end.

(** Any exception leaves the predictor not ready, with the model the failed
    step left. *)
Definition initialize (store : model_store) (self : WinPredictor) : WinPredictor :=
  match makedirs store with
  | Py.Raise _ => set_is_ready self false
  | Py.Ok _ =>
      let (self, outcome) :=
        if model_file_exists store then _load_model store self
        else _create_new_model store self in
      match outcome with
      | Py.Ok _ => set_is_ready self true
      | Py.Raise _ => set_is_ready self false
      end
  end.

(** [prediction_raw[0][0]] *)
Definition item00 (prediction_raw : list (list Q)) : Py.res Q :=
  match prediction_raw with
  | (x :: _) :: _ => Py.Ok x
  | _ => Py.Raise (Py.IndexError "index out of range")
  end.

(** The handler of the [try] block returns 0.5. *)
Definition _calculate_confidence (prediction_raw : list (list Q)) : Q :=
  match item00 prediction_raw with
  | Py.Ok prob =>
      let confidence := 2 * Qabs (prob - 0.5) in
      Py.min 1.0 (Py.max 0.0 confidence)
  | Py.Raise _ => 0.5
  end.

(** The handler of the [try] block returns the empty dict.  The sum is
    exact here; the float sum stays within the range of a float when no
    signal exceeds [addend_bound] in magnitude. *)
Definition _analyze_influencing_factors (features : feature_dict)
    : list (string * Q) :=
  let factors :=
    [ ("deck_synergy", Py.get features "deck_synergy_score" 0.0);
      ("elixir_efficiency", Py.get features "elixir_efficiency" 0.0);
      ("opponent_counter", Py.get features "opponent_counter_score" 0.0);
      ("player_skill", Py.get features "skill_rating" 0.0);
      ("recent_performance", Py.get features "recent_win_rate" 0.0) ] in
  let total := Py.sum (map (fun kv => Qabs (snd kv)) factors) in
  let normalized :=
    if Py.gtb total 0 then
      Py.res_map
        (fun kv => Py.res_bind (Py.float_div (snd kv) total)
                     (fun w => Py.Ok (fst kv, w)))
        factors
    else Py.Ok factors in
  match normalized with
  | Py.Ok factors => factors
  | Py.Raise _ => []
  end.

(** Nothing in the [try] block of this method, of [_analyze_battle_state] or
    of [_generate_live_recommendations] raises on numeric data, so their
    handlers have no counterpart here. *)
Definition _generate_recommendations (features : feature_dict)
    (win_probability : Q) : list string :=
  let recommendations :=
    if Py.ltb win_probability 0.4 then
      [ "Consider a more defensive strategy";
        "Focus on positive elixir trades" ]
      ++ (if Py.ltb (Py.get features "deck_synergy_score" 0) 0.5 then
            [ "Your deck synergy is low - consider card substitutions" ]
          else [])
    else if Py.gtb win_probability 0.7 then
      [ "You have a strong advantage - maintain pressure";
        "Look for opportunities to take towers" ]
    else
      [ "Match is balanced - adapt to opponent's strategy";
        "Monitor elixir carefully" ] in
  if Py.gtb (Py.get features "average_elixir_cost" 0) 4.0 then
    recommendations ++ [ "Heavy deck - be patient with elixir management" ]
  else if Py.ltb (Py.get features "average_elixir_cost" 0) 3.0 then
    recommendations ++ [ "Fast cycle deck - maintain constant pressure" ]
  else recommendations.

Definition _determine_battle_phase (battle_data : raw_dict) : string :=
  let time_remaining := Py.get battle_data "time_remaining" 0%Z in
  if (time_remaining >? 120)%Z then "early_game"
  else if (time_remaining >? 60)%Z then "mid_game"
  else if (time_remaining >? 0)%Z then "late_game"
  else "overtime".

Definition _analyze_battle_state (battle_data : raw_dict) : battle_state :=
  mkBattleState
    (Py.get battle_data "time_remaining" 0%Z)
    (Py.get battle_data "player_towers" 3%Z)
    (Py.get battle_data "opponent_towers" 3%Z)
    (Py.get battle_data "elixir_advantage" 0%Z)
    (_determine_battle_phase battle_data).

Definition _generate_live_recommendations (features : feature_dict)
    (win_probability : Q) (battle_data : raw_dict) : list string :=
  let battle_phase := _determine_battle_phase battle_data in
  let towers_down := (3 - Py.get battle_data "player_towers" 3)%Z in
  let opponent_towers_down := (3 - Py.get battle_data "opponent_towers" 3)%Z in
  if String.eqb battle_phase "early_game" then
    [ "Focus on learning opponent's deck";
      "Make positive elixir trades" ]
  else if String.eqb battle_phase "mid_game" then
    if Py.gtb win_probability 0.6 then [ "Build a strong push" ]
    else [ "Defend and counter-attack" ]
  else if String.eqb battle_phase "late_game" then
    if (towers_down >? opponent_towers_down)%Z then
      [ "Play defensively - protect your lead" ]
    else [ "Time for aggressive plays" ]
  else if String.eqb battle_phase "overtime" then
    [ "High-risk, high-reward plays";
      "Focus on tower damage" ]
  else [].

Section WithFeatureEngineer.

Context {feature_engineer : FeatureEngineer}.

(** One time step [(1, 1, F)], padded with zero rows (or cut) to the
    sequence length 50. *)
Definition _prepare_model_input (features : feature_dict)
    : list (list (list Q)) :=
  let feature_vector := features_to_vector features in
  let sequence_input := [ [ feature_vector ] ] in
  let target_seq_len := 50%nat in
  let current_seq_len := length (hd [] sequence_input) in
  let width := length (hd [] (hd [] sequence_input)) in
  if (current_seq_len <? target_seq_len)%nat then
    map (fun rows =>
           rows ++ repeat (repeat 0 width) (target_seq_len - current_seq_len))
        sequence_input
  else if (target_seq_len <? current_seq_len)%nat then
    map (firstn target_seq_len) sequence_input
  else sequence_input.

(** [self.model(model_input)]; calling [None] is a [TypeError]. *)
Definition call_model (self : WinPredictor) (model_input : list (list (list Q)))
    : Py.res (list (list Q)) :=
  match model self with
  | Some m => Py.Ok (m model_input)
  | None => Py.Raise (Py.TypeError "'NoneType' object is not callable")
  end.

Definition predict (self : WinPredictor) (player_data : raw_dict)
    (opponent_data battle_context : option raw_dict) : Py.M prediction :=
  if negb (is_ready self) then Py.raise (Py.ValueError "Model not ready")
  else
    let features :=
      extract_features player_data opponent_data battle_context in
    let model_input := _prepare_model_input features in
    prediction_raw <- Py.lift (call_model self model_input) ;;
    win_probability <- Py.lift (item00 prediction_raw) ;;
    let confidence := _calculate_confidence prediction_raw in
    let influencing_factors := _analyze_influencing_factors features in
    let recommendations := _generate_recommendations features win_probability in
    now <- Py.utcnow_isoformat ;;
    Py.ret
      (mkPrediction win_probability confidence (self_model_version self)
         (Some features) (Some influencing_factors) None
         recommendations now).

Definition predict_live (self : WinPredictor) (player_tag : string)
    (battle_data : raw_dict) : Py.M prediction :=
  if negb (is_ready self) then Py.raise (Py.ValueError "Model not ready")
  else
    let features := extract_live_features player_tag battle_data in
    let model_input := _prepare_model_input features in
    prediction_raw <- Py.lift (call_model self model_input) ;;
    win_probability <- Py.lift (item00 prediction_raw) ;;
    let confidence := _calculate_confidence prediction_raw in
    let battle_analysis := _analyze_battle_state battle_data in
    let recommendations :=
      _generate_live_recommendations features win_probability battle_data in
    now <- Py.utcnow_isoformat ;;
    Py.ret
      (mkPrediction win_probability confidence (self_model_version self)
         None None (Some battle_analysis) recommendations now).

End WithFeatureEngineer.

End Predictor.

(** ** [app/api/v1/endpoints/players_simple.py]: [get_player_stats] *)

Module PlayersSimple.

Record player_stats : Type := mkPlayerStats {
  player_tag : string;
  win_rate : Q;
  total_battles : Z;
  skill_rating : Q;
  consistency_score : Q;
  deck_mastery : Q;
  average_elixir_cost : Q
}.

Inductive response (A : Type) : Type :=
| Returned (a : A)
| HTTPException (status_code : Z).
Arguments Returned {A} a.
Arguments HTTPException {A} status_code.

(** The statistics of a record (lines 84 to 97), over the division
    [true_div] of two ints. *)
Definition statistics (true_div : Z -> Z -> Py.res Q) (clean_tag : string)
    (player_data : raw_dict) : Py.res player_stats :=
  let wins := Py.get player_data "wins" 0%Z in
  let losses := Py.get player_data "losses" 0%Z in
  let total_battles := (wins + losses)%Z in
  Py.res_bind (true_div wins (Z.max 1 total_battles)) (fun win_rate =>
  Py.res_bind (true_div (Py.get player_data "trophies" 0%Z) 6000%Z)
    (fun scaled =>
       Py.Ok (mkPlayerStats clean_tag win_rate total_battles
                (Py.min 1.0 scaled) 0.7 0.8 3.8))).

(** The endpoint from the answer of the service on, with every quotient
    taken as a float: it is given the tag as cleaned and what
    [clash_service.get_player(clean_tag)] returned.  [not player_data] holds
    for [None] and for the empty dict.  [Binary64.get_player_stats] below is
    the whole endpoint, the call of the service inside its [try] block and
    the range of a float included. *)
Definition get_player_stats (clean_tag : string) (player_data : option raw_dict)
    : response player_stats :=
  match player_data with
  | None => HTTPException 404
  | Some player_data =>
      if decide (player_data = ∅) then HTTPException 404
      else
        match statistics Py.true_div clean_tag player_data with
        | Py.Ok stats => Returned stats
        | Py.Raise _ => HTTPException 500
        end
  end.

End PlayersSimple.

(** ** Collaborators of [app/api/v1/endpoints/predictions.py] outside the sources

    [ClashRoyaleService] ([app.services.clash_royale_service]) answers with a
    record, with nothing, or raises an exception of the runtime.  [Prediction] and [PredictionFeedback]
    ([app.models.prediction]) are records of the keyword arguments the
    endpoints construct them with.  A database session stores a row ([add],
    [commit], [refresh]) or a feedback ([add], [commit]), finds the first
    prediction with an id, and can raise in each; [from_orm] is the response
    schema's constructor. *)

Class ClashRoyaleService : Type := {
  get_player : string -> Py.res (option raw_dict);
  get_live_battle_data : string -> Py.res (option raw_dict)
}.

Module Prediction.

Record t : Type := mk {
  player_tag : string;
  win_probability : Q;
  confidence : Q;
  model_version : string;
  input_features : feature_dict;
  deck_synergy_impact : Q;
  elixir_efficiency_impact : Q;
  opponent_counter_impact : Q;
  player_skill_impact : Q;
  recent_performance_impact : Q;
  prediction_type : string;
  battle_state : option raw_dict
}.

End Prediction.

Module PredictionFeedback.

Record t : Type := mk {
  prediction_id : Z;
  user_rating : Z;
  user_comment : option string;
  was_helpful : option bool
}.

End PredictionFeedback.

Class Session (Response : Type) : Type := {
  save_prediction : Prediction.t -> Py.res Prediction.t;
  find_prediction : Z -> Py.res (option Prediction.t);
  save_feedback : PredictionFeedback.t -> Py.res unit;
  from_orm : Prediction.t -> Py.res Response
}.

(** ** [app/api/v1/endpoints/predictions.py] *)

Module Predictions.

(** What the body of an endpoint can raise. *)
Inductive raised : Type :=
| HTTP (status_code : Z) (detail : string)
| KeyError (key : string)
| Exn (e : Py.exn).

Inductive outcome (A : Type) : Type :=
| Value (a : A)
| Throw (e : raised).
Arguments Value {A} a.
Arguments Throw {A} e.

(** The body of an endpoint: it reads and advances the world and returns or
    raises. *)
Definition E (A : Type) : Type := Py.world -> outcome A * Py.world.

Definition ret {A} (a : A) : E A := fun w => (Value a, w).

Definition throw {A} (e : raised) : E A := fun w => (Throw e, w).

Definition bind {A B} (c : E A) (k : A -> E B) : E B :=
  fun w =>
    match c w with
    | (Value a, w') => k a w'
    | (Throw e, w') => (Throw e, w')
    end.

(** A call into the predictor, and a call of a collaborator. *)
Definition call {A} (c : Py.M A) : E A :=
  fun w =>
    match c w with
    | (Py.Ok a, w') => (Value a, w')
    | (Py.Raise e, w') => (Throw (Exn e), w')
    end.

Definition ask {A} (c : Py.res A) : E A :=
  fun w =>
    match c with
    | Py.Ok a => (Value a, w)
    | Py.Raise e => (Throw (Exn e), w)
    end.

(** What an endpoint answers. *)
Inductive response (A : Type) : Type :=
| Returned (a : A)
| HTTPException (status_code : Z) (detail : string).
Arguments Returned {A} a.
Arguments HTTPException {A} status_code detail.

(** [try: ... except Exception as e: raise HTTPException(500, ...)]: the
    handler takes every exception of the body, an [HTTPException] raised
    there included. *)
Definition except_Exception {A} (body : E A) (w : Py.world) : response A * Py.world :=
  match body w with
  | (Value a, w') => (Returned a, w')
  | (Throw _, w') => (HTTPException 500 "Internal server error", w')
  end.

(** [s.replace("#", "")] *)
Fixpoint replace_hash (s : string) : string :=
  match s with
  | EmptyString => EmptyString
  | String ch rest =>
      if Ascii.eqb ch "#"%char then replace_hash rest
      else String ch (replace_hash rest)
  end.

(** [not d] for an optional dict: nothing and the empty dict are false. *)
Definition truthy (d : option raw_dict) : option raw_dict :=
  match d with
  | None => None
  | Some d => if decide (d = ∅) then None else Some d
  end.

(** [d[key]] on a dict the predictor built. *)
Definition item (d : list (string * Q)) (key : string) : E Q :=
  match find (fun kv => String.eqb (fst kv) key) d with
  | Some kv => ret (snd kv)
  | None => throw (KeyError key)
  end.

(** [prediction[key]] for a key the predictor may not have set. *)
Definition field {A} (value : option A) (key : string) : E A :=
  match value with
  | Some a => ret a
  | None => throw (KeyError key)
  end.

Record PredictionRequest : Type := mkPredictionRequest {
  opponent_data : option raw_dict;
  battle_context : option raw_dict
}.

Inductive live_answer : Type :=
| NotInBattle (message : string)
| InBattle (player_tag : string) (live : prediction) (battle_state : raw_dict).

Record feedback_answer : Type := mkFeedbackAnswer {
  message : string;
  answered_prediction_id : Z
}.

(** The module's predictor: [win_predictor = WinPredictor()]. *)
Definition win_predictor : PredictorSimple.WinPredictor := PredictorSimple.__init__.

Section Endpoints.

Context {clash_service : ClashRoyaleService}.
Context {Response : Type} {db : Session Response}.

(** [str.upper] *)
Context (upper : string -> string).

Definition clean (player_tag : string) : string := upper (replace_hash player_tag).

(** The endpoint, over the division [true_div] of two ints that
    [win_predictor.predict] computes with. *)
Definition predict_win_probability_with (true_div : Z -> Z -> Py.res Q)
    (player_tag : string) (prediction_request : PredictionRequest)
    : Py.world -> response Response * Py.world :=
  except_Exception
    (let clean_tag := clean player_tag in
     bind (ask (get_player clean_tag)) (fun player_data =>
     match truthy player_data with
     | None => throw (HTTP 404 "Player not found")
     | Some player_data =>
         bind (call (PredictorSimple.predict_with true_div win_predictor
                       player_data
                       (opponent_data prediction_request)
                       (battle_context prediction_request))) (fun prediction =>
         bind (field (input_features prediction) "input_features") (fun features =>
         bind (field (influencing_factors prediction) "influencing_factors")
           (fun factors =>
         bind (item factors "deck_synergy") (fun deck_synergy =>
         bind (item factors "elixir_efficiency") (fun elixir_efficiency =>
         bind (item factors "opponent_counter") (fun opponent_counter =>
         bind (item factors "player_skill") (fun player_skill =>
         bind (item factors "recent_performance") (fun recent_performance =>
         let db_prediction :=
           Prediction.mk clean_tag (win_probability prediction)
             (confidence prediction) (model_version prediction) features
             deck_synergy elixir_efficiency opponent_counter player_skill
             recent_performance "api_request"
             (battle_context prediction_request) in
         bind (ask (save_prediction db_prediction)) (fun db_prediction =>
         ask (from_orm db_prediction))))))))))
     end)).

(** The endpoint with every quotient taken as a float. *)
Definition predict_win_probability (player_tag : string)
    (prediction_request : PredictionRequest) : Py.world -> response Response * Py.world :=
  predict_win_probability_with Py.true_div player_tag prediction_request.

Definition get_live_prediction (player_tag : string)
    : Py.world -> response live_answer * Py.world :=
  except_Exception
    (let clean_tag := clean player_tag in
     bind (ask (get_live_battle_data clean_tag)) (fun battle_data =>
     match truthy battle_data with
     | None => ret (NotInBattle "Player is not currently in a battle")
     | Some battle_data =>
         bind (call (PredictorSimple.predict_live win_predictor clean_tag
                       battle_data)) (fun prediction =>
         ret (InBattle clean_tag prediction battle_data))
     end)).

Definition submit_prediction_feedback (prediction_id rating : Z)
    (comment : option string) (helpful : option bool)
    : Py.world -> response feedback_answer * Py.world :=
  except_Exception
    (bind (ask (find_prediction prediction_id)) (fun prediction =>
     match prediction with
     | None => throw (HTTP 404 "Prediction not found")
     | Some _ =>
         let feedback :=
           PredictionFeedback.mk prediction_id rating comment helpful in
         bind (ask (save_feedback feedback)) (fun _ =>
         ret (mkFeedbackAnswer "Feedback submitted successfully" prediction_id))
     end)).

End Endpoints.

End Predictions.

(** ** The division of two ints with the range of a float

    The methods and endpoints that divide two ints, as CPython runs them: a
    quotient that rounds out of the range of a float raises
    [OverflowError]. *)

Module Binary64.

Definition predict (self : PredictorSimple.WinPredictor) (player_data : raw_dict)
    (opponent_data battle_context : option raw_dict) : Py.M prediction :=
  PredictorSimple.predict_with Py.long_true_divide self player_data
    opponent_data battle_context.

Section Endpoints.

Context {clash_service : ClashRoyaleService}.
Context {Response : Type} {db : Session Response}.

(** [str.upper] *)
Context (upper : string -> string).

(** [get_player_stats] of [players_simple.py]: the handlers pass an
    [HTTPException] on and answer every other exception of the [try] block,
    that of the service call included, with status 500. *)
Definition get_player_stats (player_tag : string)
    : PlayersSimple.response PlayersSimple.player_stats :=
  let clean_tag := Predictions.clean upper player_tag in
  match get_player clean_tag with
  | Py.Raise _ => PlayersSimple.HTTPException 500
  | Py.Ok player_data =>
      match Predictions.truthy player_data with
      | None => PlayersSimple.HTTPException 404
      | Some player_data =>
          match PlayersSimple.statistics Py.long_true_divide clean_tag
                  player_data with
          | Py.Ok stats => PlayersSimple.Returned stats
          | Py.Raise _ => PlayersSimple.HTTPException 500
          end
      end
  end.

(** [predict_win_probability] of [predictions.py] *)
Definition predict_win_probability (player_tag : string)
    (prediction_request : Predictions.PredictionRequest)
    : Py.world -> Predictions.response Response * Py.world :=
  Predictions.predict_win_probability_with upper Py.long_true_divide player_tag
    prediction_request.

End Endpoints.

End Binary64.

(** ** [start_simple.py]

    The script acts on its host: it prints, runs and polls processes, sleeps
    and opens a browser.  A run is the list of these actions in order, with
    how the run ends.  What the host answers is a record the functions read:
    the interpreter's version, what the imports find, the environment, the
    outcome of the migration, the health check's answer at each attempt, and
    whether Ctrl+C arrives while the script sleeps or waits for the backend
    (the blocking calls inside the [try] block of [main]). *)

Module StartSimple.

(** [HealthGet url] is one attempt of [requests.get(url, timeout=1)], the
    import of [requests] before it included; [Popen cmd] starts the backend
    process, [Terminate] and [Wait] are [backend_process.terminate()] and
    [backend_process.wait()]. *)
Inductive event : Type :=
| Stdout (line : string)
| LoadDotenv
| RunAlembic
| Popen (cmd : list string)
| HealthGet (url : string)
| Sleep (seconds : Z)
| OpenBrowser (url : string)
| Terminate
| Wait.

Inductive result (A : Type) : Type :=
| Done (a : A)
| SystemExit (code : Z)
| KeyboardInterrupt
| Uncaught (exception : string).
Arguments Done {A} a.
Arguments SystemExit {A} code.
Arguments KeyboardInterrupt {A}.
Arguments Uncaught {A} exception.

Definition S (A : Type) : Type := result A * list event.

Definition ret {A} (a : A) : S A := (Done a, []).

Definition bind {A B} (c : S A) (k : A -> S B) : S B :=
  match c with
  | (Done a, t) => let '(r, t') := k a in (r, t ++ t')
  | (SystemExit code, t) => (SystemExit code, t)
  | (KeyboardInterrupt, t) => (KeyboardInterrupt, t)
  | (Uncaught exception, t) => (Uncaught exception, t)
  end.

Definition seq {A B} (c : S A) (k : S B) : S B := bind c (fun _ => k).

Definition emit (e : event) : S unit := (Done tt, [e]).

Definition print (line : string) : S unit := emit (Stdout line).

(** [sys.exit(code)] *)
Definition exit {A} (code : Z) : S A := (SystemExit code, []).

(** [try: body except KeyboardInterrupt: handler] *)
Definition except_KeyboardInterrupt {A} (body handler : S A) : S A :=
  match body with
  | (KeyboardInterrupt, t) => let '(r, t') := handler in (r, t ++ t')
  | other => other
  end.

(** An element of a tuple, and [a < b] on tuples: the first position where
    the two differ decides, by [<] on its elements ([TypeError] between an
    int and a str); when one is a prefix of the other the shorter is less. *)
Inductive element : Type :=
| Int (z : Z)
| Str (s : string).

Fixpoint tuple_lt (a b : list element) : Py.res bool :=
  match a, b with
  | _, [] => Py.Ok false
  | [], _ :: _ => Py.Ok true
  | Int m :: a', Int n :: b' =>
      if (m =? n)%Z then tuple_lt a' b' else Py.Ok (m <? n)%Z
  | Str s :: a', Str t :: b' =>
      if String.eqb s t then tuple_lt a' b' else Py.Ok (String.ltb s t)
  | _ :: _, _ :: _ =>
      Py.Raise (Py.TypeError "'<' not supported between instances of 'int' and 'str'")
  end.

Record version : Type := mkVersion {
  major : Z;
  minor : Z;
  micro : Z;
  releaselevel : string;
  serial : Z
}.

Definition as_tuple (v : version) : list element :=
  [ Int (major v); Int (minor v); Int (micro v); Str (releaselevel v);
    Int (serial v) ].

Inductive alembic_result : Type :=
| Migrated
| CalledProcessError
| FileNotFoundError
| OtherError (exception : string).

Inductive probe : Type :=
| Status (status_code : Z)
| Failed.

Record host : Type := mkHost {
  version_info : version;
  executable : string;
  import_error : option string;
  env_file_exists : bool;
  dotenv_installed : bool;
  api_key : option string;
  alembic : alembic_result;
  backend_starts : bool;
  health : nat -> probe;
  sleep_interrupted : nat -> bool;
  wait_interrupted : bool
}.

Definition check_python_version (h : host) : S unit :=
  match tuple_lt (as_tuple (version_info h)) [ Int 3; Int 9 ] with
  | Py.Raise _ => (Uncaught "TypeError", [])
  | Py.Ok true => seq (print "❌ Python 3.9 or higher is required") (exit 1)
  | Py.Ok false =>
      print ("✅ Python " +:+ pretty (major (version_info h)) +:+ "."
             +:+ pretty (minor (version_info h)) +:+ " detected")
  end.

(** The three imports succeed, or the first that fails raises an
    [ImportError] with a message. *)
Definition check_basic_dependencies (h : host) : S bool :=
  match import_error h with
  | None => seq (print "✅ Core dependencies found") (ret true)
  | Some e =>
      seq (print ("❌ Missing dependency: " +:+ e))
     (seq (print "Please install basic dependencies first:")
     (seq (print "pip install fastapi uvicorn[standard] sqlalchemy alembic pydantic-settings python-dotenv httpx")
          (ret false)))
  end.

(** [not api_key] holds for an unset and for an empty variable. *)
Definition check_environment (h : host) : S bool :=
  if negb (env_file_exists h) then
    seq (print "❌ .env file not found") (ret false)
  else if negb (dotenv_installed h) then (Uncaught "ImportError", [])
  else
    seq (emit LoadDotenv)
      (match api_key h with
       | None | Some EmptyString =>
           seq (print "❌ CLASH_ROYALE_API_KEY not set in .env file") (ret false)
       | Some _ => seq (print "✅ Environment variables configured") (ret true)
       end).

Definition setup_database (h : host) : S bool :=
  seq (print "🗄️  Setting up database...")
 (seq (emit RunAlembic)
    (match alembic h with
     | Migrated => seq (print "✅ Database migrations completed") (ret true)
     | CalledProcessError =>
         seq (print "⚠️  Database setup skipped (already exists)") (ret true)
     | FileNotFoundError =>
         seq (print "⚠️  Alembic not found, database will be created automatically")
             (ret true)
     | OtherError exception => (Uncaught exception, [])
     end)).

Definition start_backend (h : host) : S unit :=
  seq (print "🚀 Starting backend server...")
    (let cmd :=
       [ executable h; "-m"; "uvicorn"; "app.main:app"; "--host"; "127.0.0.1";
         "--port"; "8000"; "--reload" ] in
     if backend_starts h then emit (Popen cmd) else (Uncaught "OSError", [])).

(** Inside the [try] of an attempt: a response came back and its status
    code is 200.  The bare [except] takes whatever the request raises. *)
Definition answered_200 (p : probe) : bool :=
  match p with
  | Status status_code => (status_code =? 200)%Z
  | Failed => false
  end.

(** The body of [for i in range(20)], from attempt [i] on, [remaining]
    attempts being left: an attempt that is not answered 200 goes on to
    sleep and to the next one. *)
Fixpoint poll (h : host) (remaining i : nat) : S bool :=
  match remaining with
  | O => seq (print "❌ Backend failed to start") (ret false)
  | Datatypes.S remaining' =>
      seq (emit (HealthGet "http://127.0.0.1:8000/health"))
        (if answered_200 (health h i) then
           seq (print "✅ Backend is ready!") (ret true)
         else
           seq (if sleep_interrupted h i then (KeyboardInterrupt, [])
                else emit (Sleep 1))
          (seq (print ("   Attempt " +:+ pretty (i + 1)%nat +:+ "/20..."))
               (poll h remaining' (Datatypes.S i))))
  end.

Definition wait_for_backend (h : host) : S bool :=
  seq (print "⏳ Waiting for backend to start...") (poll h 20 0).

Definition open_frontend : S unit :=
  let frontend_url := "http://127.0.0.1:8000/static/index.html" in
  seq (print ("🌐 Opening frontend at " +:+ frontend_url))
      (emit (OpenBrowser frontend_url)).

(** [s * n] *)
Fixpoint times (s : string) (n : nat) : string :=
  match n with
  | O => EmptyString
  | Datatypes.S n' => s +:+ times s n'
  end.

Definition newline : string := String "010"%char EmptyString.

Definition main (h : host) : S unit :=
  seq (print "🎮 Clash Royale Win Predictor AI - Simple Startup")
 (seq (print (times "=" 55))
 (seq (check_python_version h)
 (bind (check_basic_dependencies h) (fun dependencies =>
  if negb dependencies then exit 1 else
  bind (check_environment h) (fun environment =>
  if negb environment then
    seq (print (newline +:+ "📋 Setup Instructions:"))
   (seq (print "1. Make sure your .env file exists with CLASH_ROYALE_API_KEY")
   (seq (print "2. Run this script again") (exit 1)))
  else
  seq (setup_database h)
 (seq (start_backend h)
    (except_KeyboardInterrupt
       (bind (wait_for_backend h) (fun ready =>
        if ready then
          seq open_frontend
         (seq (print (newline +:+ "🎉 Application started successfully!"))
         (seq (print "📊 Backend API: http://127.0.0.1:8000")
         (seq (print "🎮 Frontend: http://127.0.0.1:8000/static/index.html")
         (seq (print "📚 API Docs: http://127.0.0.1:8000/docs")
         (seq (print (newline +:+ "Press Ctrl+C to stop the server"))
              (if wait_interrupted h then (KeyboardInterrupt, [])
               else emit Wait))))))
        else seq (emit Terminate) (exit 1)))
       (seq (print (newline +:+ "🛑 Shutting down..."))
       (seq (emit Terminate)
       (seq (emit Wait) (print "✅ Server stopped"))))))))))).

End StartSimple.

(** ** Running a computation *)

Definition run {A} (c : Py.M A) (w : Py.world) : Py.res A := fst (c w).

(** The player of the end-to-end example. *)
Definition sample_player : raw_dict :=
  <["wins" := 70%Z]> (<["losses" := 30%Z]> (<["trophies" := 5000%Z]> ∅)).


(** ** Reference notions the properties are stated with *)

(** [clamp lo hi x]: [x] brought into the interval [[lo, hi]]. *)
Definition clamp (lo hi x : Q) : Q :=
  if Qlt_le_dec x lo then lo else if Qlt_le_dec hi x then hi else x.

(** The condition the engine reports when its backend is not initialised:
    the code raises [ValueError("Model not ready")]. *)
Definition EngineNotReady : Py.exn := Py.ValueError "Model not ready".

(** win-rate = wins / max(1, wins + losses) *)
Definition heuristic_win_rate (player_data : raw_dict) : Q :=
  inject_Z (Py.get player_data "wins" 0%Z)
  / inject_Z (Z.max 1 (Py.get player_data "wins" 0%Z + Py.get player_data "losses" 0%Z)).

(** trophy-factor = min(1, trophies / 6000) *)
Definition heuristic_trophy_factor (player_data : raw_dict) : Q :=
  Qmin 1 (inject_Z (Py.get player_data "trophies" 0%Z) / 6000).

(** The weighted blend 0.6 * win-rate + 0.4 * trophy-factor. *)
Definition heuristic_blend (player_data : raw_dict) : Q :=
  0.6 * heuristic_win_rate player_data + 0.4 * heuristic_trophy_factor player_data.




(** The [i]-th draw of [random.random()] from world [w] on. *)
Definition draw (w : Py.world) (i : nat) : Q :=
  Py.float_tape w (Py.cursor w + i).

(** A feature set from its items. *)
Definition features_of (items : list (string * Q)) : feature_dict :=
  list_to_map items.




(** An int within the range of a float: [float(n)] does not overflow. *)
Definition float_range (n : Z) : Prop := (Z.abs n < Py.float_overflow)%Z.

(** ** Collaborators for the worked examples

    A feature engineer that reports a fixed deck for every player, and a
    model that scores every input 0.8; [example_predictor] is the learned
    predictor initialised with that model, no weight file being on disk. *)
Definition example_engineer : FeatureEngineer :=
  {| extract_features := fun _ _ _ =>
       features_of [ ("deck_synergy_score", 0.3); ("average_elixir_cost", 4.5) ];
     extract_live_features := fun _ _ => features_of [ ("elixir_efficiency", 0.5) ];
     features_to_vector := fun features => map snd (map_to_list features) |}.

Definition example_model : TransformerLSTMModel := fun _ => [ [ 0.8 ] ].

Definition example_predictor : Predictor.WinPredictor :=
  Predictor.initialize
    (mkModelStore (Py.Ok tt) false (Py.Raise (Py.ValueError "no weights"))
       (Py.Ok example_model) None None)
    (Predictor.__init__ 0.7).

(** A model whose score leaves [0, 1], the predictor initialised with it, and
    a store on which nothing succeeds: the weights do not load and the new
    model, once constructed, cannot be built; [fresh_model] is the object the
    constructor returns, which scores nothing. *)
Definition overshooting_model : TransformerLSTMModel := fun _ => [ [ 1.5 ] ].

Definition overshooting_predictor : Predictor.WinPredictor :=
  Predictor.initialize
    (mkModelStore (Py.Ok tt) true (Py.Ok overshooting_model)
       (Py.Raise (Py.ValueError "cannot build")) None None)
    (Predictor.__init__ 0.7).

Definition fresh_model : TransformerLSTMModel := fun _ => [].

Definition failing_store : model_store :=
  mkModelStore (Py.Ok tt) true (Py.Raise (Py.ValueError "corrupt weights"))
    (Py.Raise (Py.ValueError "cannot build")) (Some fresh_model)
    (Some fresh_model).

(** Collaborators for the worked examples of the endpoints: a service that
    knows the player 2PP, in a battle with 90 seconds left; a session that
    stores every row as it is and holds one prediction, of id 1; and
    [str.upper] on strings of ASCII characters. *)
Definition example_service : ClashRoyaleService :=
  {| get_player := fun tag =>
       if String.eqb tag "2PP" then Py.Ok (Some sample_player) else Py.Ok None;
     get_live_battle_data := fun tag =>
       if String.eqb tag "2PP" then Py.Ok (Some (<["time_remaining" := 90%Z]> ∅))
       else Py.Ok None |}.

Definition example_row : Prediction.t :=
  Prediction.mk "2PP" 0.5 0.6 "1.0.0-simple" ∅ 0.3 0.4 0.2 0.7 0.3 "api_request"
    None.

(** A record with more trophies than a float can hold, and a service that
    answers every tag with it. *)
Definition huge_player : raw_dict := <["trophies" := (10 ^ 400)%Z]> sample_player.

Definition huge_service : ClashRoyaleService :=
  {| get_player := fun _ => Py.Ok (Some huge_player);
     get_live_battle_data := fun _ => Py.Ok None |}.

Definition example_session : Session Prediction.t :=
  {| save_prediction := fun row => Py.Ok row;
     find_prediction := fun id =>
       if (id =? 1)%Z then Py.Ok (Some example_row) else Py.Ok None;
     save_feedback := fun _ => Py.Ok tt;
     from_orm := fun row => Py.Ok row |}.

Definition ascii_upper_char (ch : ascii) : ascii :=
  if (97 <=? nat_of_ascii ch)%nat && (nat_of_ascii ch <=? 122)%nat
  then ascii_of_nat (nat_of_ascii ch - 32)
  else ch.

Fixpoint ascii_upper (s : string) : string :=
  match s with
  | EmptyString => EmptyString
  | String ch rest => String (ascii_upper_char ch) (ascii_upper rest)
  end.

(** The requests and the sleeps of a run, and the actions that only print,
    probe and sleep. *)
Definition is_request (e : StartSimple.event) : bool :=
  match e with StartSimple.HealthGet _ => true | _ => false end.

Definition is_sleep (e : StartSimple.event) : bool :=
  match e with StartSimple.Sleep _ => true | _ => false end.

Definition waits_only (e : StartSimple.event) : Prop :=
  match e with
  | StartSimple.Stdout _ | StartSimple.HealthGet _ | StartSimple.Sleep _ => True
  | _ => False
  end.

(** The interpreter is Python 3.9 or later. *)
Definition supported (v : StartSimple.version) : Prop :=
  (3 < StartSimple.major v
   \/ (StartSimple.major v = 3 /\ 9 <= StartSimple.minor v))%Z.

(** The checks of [main] before the backend is started all pass and nothing
    is missing on the way: the version is supported, the three imports
    succeed, the .env file exists, dotenv can be imported, the API key is set
    and not empty, the migration does not end in an unforeseen error, and the
    backend process can be started. *)
Definition checks_pass (h : StartSimple.host) : Prop :=
  supported (StartSimple.version_info h)
  /\ StartSimple.import_error h = None
  /\ StartSimple.env_file_exists h = true
  /\ StartSimple.dotenv_installed h = true
  /\ (exists key, StartSimple.api_key h = Some key /\ key <> EmptyString)
  /\ (forall what, StartSimple.alembic h <> StartSimple.OtherError what)
  /\ StartSimple.backend_starts h = true.

(** The actions of [main] before it starts the backend. *)
Definition preparing (e : StartSimple.event) : Prop :=
  match e with
  | StartSimple.Stdout _ | StartSimple.LoadDotenv | StartSimple.RunAlembic => True
  | _ => False
  end.

(** How many actions of a run satisfy a test. *)
Fixpoint count (test : StartSimple.event -> bool) (run : list StartSimple.event)
    : nat :=
  match run with
  | [] => 0
  | e :: run' => (if test e then 1 else 0) + count test run'
  end.

(** The host of the worked examples: Python 3.11, everything installed and
    configured, a backend that answers 200 at the third health check, and no
    Ctrl+C. *)
Definition example_host : StartSimple.host :=
  StartSimple.mkHost (StartSimple.mkVersion 3 11 4 "final" 0) "/usr/bin/python3"
    None true true (Some "key") StartSimple.Migrated true
    (fun i => if (i <? 2)%nat then StartSimple.Failed else StartSimple.Status 200)
    (fun _ => false) false.

(** * Properties *)

(** ** Comparisons, [min] and [max] *)

Lemma ltb_true (a b : Q) : Py.ltb a b = true <-> a < b.
Proof.
  unfold Py.ltb. rewrite negb_true_iff.
  split; intros H.
  - apply Qnot_le_lt. intros Hle. apply Qle_bool_iff in Hle. congruence.
  - destruct (Qle_bool b a) eqn:E; [|reflexivity].
    apply Qle_bool_iff in E. apply Qle_not_lt in E. contradiction.
Qed.

Lemma ltb_false (a b : Q) : Py.ltb a b = false <-> b <= a.
Proof.
  unfold Py.ltb. rewrite negb_false_iff. apply Qle_bool_iff.
Qed.

Lemma gtb_true (a b : Q) : Py.gtb a b = true <-> b < a.
Proof. unfold Py.gtb. apply ltb_true. Qed.

Lemma gtb_false (a b : Q) : Py.gtb a b = false <-> a <= b.
Proof. unfold Py.gtb. apply ltb_false. Qed.

Ltac cmp_cases :=
  repeat match goal with
  | |- context [Py.ltb ?a ?b] =>
      let E := fresh "E" in
      destruct (Py.ltb a b) eqn:E;
      [apply ltb_true in E | apply ltb_false in E]
  | |- context [Py.gtb ?a ?b] =>
      let E := fresh "E" in
      destruct (Py.gtb a b) eqn:E;
      [apply gtb_true in E | apply gtb_false in E]
  | |- context [Qlt_le_dec ?a ?b] => destruct (Qlt_le_dec a b)
  end.

Lemma max_cases (a b : Q) :
  (a < b /\ Py.max a b = b) \/ (b <= a /\ Py.max a b = a).
Proof. unfold Py.max. cmp_cases; auto. Qed.

Lemma min_cases (a b : Q) :
  (b < a /\ Py.min a b = b) \/ (a <= b /\ Py.min a b = a).
Proof. unfold Py.min. cmp_cases; auto. Qed.

Lemma min_le_l (a b : Q) : Py.min a b <= a.
Proof. destruct (min_cases a b) as [[H ->]|[H ->]]; lra. Qed.

Lemma min_eq_Qmin (a b : Q) : Py.min a b == Qmin a b.
Proof.
  destruct (min_cases a b) as [[H ->]|[H ->]].
  - symmetry. apply Q.min_r. lra.
  - symmetry. apply Q.min_l. lra.
Qed.

Lemma max_min_clamp (lo hi x : Q) :
  lo <= hi -> Py.max lo (Py.min hi x) == clamp lo hi x.
Proof.
  intros Hle. unfold clamp.
  destruct (max_cases lo (Py.min hi x)) as [[H ->]|[H ->]];
    destruct (min_cases hi x) as [[H' E]|[H' E]]; rewrite E in *;
    cmp_cases; lra.
Qed.

Lemma clamp_bounds (lo hi x : Q) : lo <= hi -> lo <= clamp lo hi x <= hi.
Proof. intros Hle. unfold clamp. cmp_cases; lra. Qed.

Lemma clamp_compat (lo hi x y : Q) : x == y -> clamp lo hi x == clamp lo hi y.
Proof. intros E. unfold clamp. cmp_cases; lra. Qed.

(** ** The heuristic predictor, run *)

Lemma choice_extra (w : Py.world) :
  exists x,
    Py.choice PredictorSimple.extra_recommendations w = (Py.Ok x, Py.advance w).
Proof.
  unfold Py.choice, PredictorSimple.extra_recommendations, Py.bind, Py.randbelow.
  cbn [length].
  assert (Hk : (Py.int_tape w (Py.cursor w) mod 5 < 5)%nat)
    by (apply Nat.mod_upper_bound; lia).
  destruct (Py.int_tape w (Py.cursor w) mod 5)%nat as [|[|[|[|[|k]]]]];
    try lia; eexists; reflexivity.
Qed.

(** The random extra item is appended fourth and cut by the limit of 3. *)
Lemma simple_recommendations_run (p : Q) (player_data : raw_dict) (w : Py.world) :
  exists l,
    PredictorSimple._generate_recommendations p player_data w
      = (Py.Ok l, Py.advance w)
    /\ length l = 3%nat
    /\ (p < 0.4 ->
        l = [ "Focus on defensive plays"; "Look for positive elixir trades";
              "Play more conservatively" ])
    /\ (0.7 < p ->
        l = [ "Maintain aggressive pressure";
              "Look for tower damage opportunities"; "Keep up the momentum" ])
    /\ (0.4 <= p <= 0.7 ->
        l = [ "Adapt to opponent's strategy"; "Monitor elixir carefully";
              "Stay flexible with your approach" ]).
Proof.
  unfold PredictorSimple._generate_recommendations, Py.bind.
  destruct (choice_extra w) as [x ->]. unfold Py.ret.
  cmp_cases; eexists; (split; [reflexivity|]); cbn [app firstn length];
    repeat split; intros; try reflexivity; lra.
Qed.

Lemma simple_predict_run (self : PredictorSimple.WinPredictor)
    (player_data : raw_dict) (o c : option raw_dict) (w : Py.world) :
  PredictorSimple.is_ready self = true ->
  exists r w' wr tf,
    PredictorSimple.predict self player_data o c w = (Py.Ok r, w')
    /\ wr == heuristic_win_rate player_data
    /\ tf == heuristic_trophy_factor player_data
    /\ win_probability r
       = Py.max 0.1 (Py.min 0.9 (wr * 0.6 + tf * 0.4 + (draw w 0 - 0.5) * 0.3))
    /\ confidence r = 0.6 + draw w 1 * 0.3
    /\ influencing_factors r
       = Some [ ("deck_synergy", 0.3 + (0.9 - 0.3) * draw w 2);
                ("elixir_efficiency", 0.4 + (0.8 - 0.4) * draw w 3);
                ("opponent_counter", 0.2 + (0.7 - 0.2) * draw w 4);
                ("player_skill", wr);
                ("recent_performance", 0.3 + (0.8 - 0.3) * draw w 5) ]
    /\ input_features r
       = Some (<["player_trophies" := inject_Z (Py.get player_data "trophies" 0%Z)]>
                 (<["win_rate" := wr]> (<["trophy_factor" := tf]> ∅)))
    /\ (exists w6,
          PredictorSimple._generate_recommendations (win_probability r) player_data w6
          = (Py.Ok (recommendations r), Py.advance w6))
    /\ battle_analysis r = None
    /\ timestamp r = Py.clock w.
Proof.
  intros Hready. unfold PredictorSimple.predict, PredictorSimple.predict_with.
  rewrite Hready. cbn [negb].
  unfold Py.bind at 1. unfold Py.lift at 1, Py.true_div at 1.
  destruct (Z.eqb_spec
              (Z.max 1 (Py.get player_data "wins" 0 + Py.get player_data "losses" 0))
              0)%Z as [E|_]; [lia|].
  unfold Py.bind at 1. unfold Py.lift at 1, Py.true_div at 1.
  change (6000 =? 0)%Z with false. cbv iota.
  set (wr := inject_Z _ / inject_Z (Z.max _ _)).
  set (tf := Py.min 1.0 _).
  unfold Py.uniform.
  unfold Py.bind, Py.random, Py.ret, Py.utcnow_isoformat.
  cbn [Py.advance Py.float_tape Py.cursor Py.clock Py.int_tape].
  match goal with
  | |- context [PredictorSimple._generate_recommendations ?p ?d ?w6] =>
      destruct (simple_recommendations_run p d w6) as (l & Hl & _);
      pose proof Hl as Hl'; rewrite Hl
  end.
  eexists _, _, wr, tf. split; [reflexivity|].
  cbn [win_probability confidence influencing_factors input_features
       recommendations battle_analysis timestamp Py.advance Py.clock].
  unfold draw.
  replace (Py.cursor w + 0)%nat with (Py.cursor w) by lia.
  replace (Py.cursor w + 1)%nat with (S (Py.cursor w)) by lia.
  replace (Py.cursor w + 2)%nat with (S (S (Py.cursor w))) by lia.
  replace (Py.cursor w + 3)%nat with (S (S (S (Py.cursor w)))) by lia.
  replace (Py.cursor w + 4)%nat with (S (S (S (S (Py.cursor w))))) by lia.
  replace (Py.cursor w + 5)%nat with (S (S (S (S (S (Py.cursor w)))))) by lia.
  repeat split; try reflexivity.
  - unfold heuristic_trophy_factor, tf. rewrite min_eq_Qmin.
    apply Q.min_compat; [reflexivity|]. unfold Qdiv. reflexivity.
  - eexists. exact Hl'.
Qed.

Lemma simple_predict_live_run (self : PredictorSimple.WinPredictor)
    (player_tag : string) (battle_data : raw_dict) (w : Py.world) :
  exists r w',
    PredictorSimple.predict_live self player_tag battle_data w = (Py.Ok r, w')
    /\ win_probability r = 0.5 + (draw w 0 - 0.5) * 0.6
    /\ confidence r = 0.6 + draw w 1 * 0.3
    /\ recommendations r
       = PredictorSimple._generate_live_recommendations
           (win_probability r) battle_data
    /\ input_features r = None
    /\ influencing_factors r = None
    /\ timestamp r = Py.clock w.
Proof.
  unfold PredictorSimple.predict_live, Py.randint, Py.bind, Py.random,
    Py.randbelow, Py.ret, Py.utcnow_isoformat.
  cbn [Py.advance Py.float_tape Py.cursor Py.clock Py.int_tape].
  eexists _, _. split; [reflexivity|].
  cbn [win_probability confidence recommendations input_features
       influencing_factors timestamp].
  unfold draw.
  replace (Py.cursor w + 0)%nat with (Py.cursor w) by lia.
  replace (Py.cursor w + 1)%nat with (S (Py.cursor w)) by lia.
  repeat split.
Qed.


(** ** The learned-model predictor, run *)

Lemma learned_predict_cases {fe : FeatureEngineer} (self : Predictor.WinPredictor)
    (player_data : raw_dict) (o c : option raw_dict) (w : Py.world) :
  Predictor.is_ready self = true ->
  let features := extract_features player_data o c in
  match Predictor.call_model self (Predictor._prepare_model_input features) with
  | Py.Raise e => Predictor.predict self player_data o c w = (Py.Raise e, w)
  | Py.Ok prediction_raw =>
      match Predictor.item00 prediction_raw with
      | Py.Raise e => Predictor.predict self player_data o c w = (Py.Raise e, w)
      | Py.Ok p =>
          Predictor.predict self player_data o c w
          = (Py.Ok
               (mkPrediction p (Predictor._calculate_confidence prediction_raw)
                  (Predictor.self_model_version self) (Some features)
                  (Some (Predictor._analyze_influencing_factors features)) None
                  (Predictor._generate_recommendations features p)
                  (Py.clock w)), w)
      end
  end.
Proof.
  intros Hready features. unfold Predictor.predict. rewrite Hready. cbn [negb].
  fold features. unfold Py.bind, Py.lift.
  destruct (Predictor.call_model self _) as [raw|e]; [|reflexivity].
  destruct (Predictor.item00 raw) as [p|e]; reflexivity.
Qed.




(** ** Battle phase *)

(** C3: the battle phase is early_game iff t > 120, mid_game iff 60 < t <= 120,
    late_game iff 0 < t <= 60 and overtime iff t <= 0; 120 is mid_game, 60 is
    late_game and 0 is overtime; every t has exactly one of the four phases.
    The learned predictor's classifier reads t from the battle data (0 when
    the key is absent) and classifies it the same way. *)
Theorem battle_phase_classification (t : Z) (battle_data : raw_dict) :
  let phase := PredictorSimple._determine_battle_phase t in
  (phase = "early_game" <-> (120 < t)%Z)
  /\ (phase = "mid_game" <-> (60 < t <= 120)%Z)
  /\ (phase = "late_game" <-> (0 < t <= 60)%Z)
  /\ (phase = "overtime" <-> (t <= 0)%Z)
  /\ (phase = "early_game" \/ phase = "mid_game"
      \/ phase = "late_game" \/ phase = "overtime")
  /\ NoDup [ "early_game"; "mid_game"; "late_game"; "overtime" ]
  /\ PredictorSimple._determine_battle_phase 120 = "mid_game"
  /\ PredictorSimple._determine_battle_phase 60 = "late_game"
  /\ PredictorSimple._determine_battle_phase 0 = "overtime"
  /\ Predictor._determine_battle_phase battle_data
     = PredictorSimple._determine_battle_phase
         (Py.get battle_data "time_remaining" 0%Z).
Proof.
  cbv zeta. unfold PredictorSimple._determine_battle_phase.
  repeat split; try reflexivity;
    try (destruct (Z.gtb_spec t 120); destruct (Z.gtb_spec t 60);
         destruct (Z.gtb_spec t 0); intros;
         first [discriminate | reflexivity | lia | exfalso; lia]).
  - destruct (Z.gtb_spec t 120); destruct (Z.gtb_spec t 60);
      destruct (Z.gtb_spec t 0); cbv iota; auto.
  - compute_done.
Qed.

(** ** The range of a float *)

Lemma true_div_positive (a b : Z) :
  (1 <= b)%Z -> Py.true_div a b = Py.Ok (inject_Z a / inject_Z b).
Proof.
  intros Hb. unfold Py.true_div. destruct (Z.eqb_spec b 0); [lia|reflexivity].
Qed.

Lemma Qabs_div_pos (v t : Q) : 0 < t -> Qabs (v / t) == Qabs v / t.
Proof.
  intros Ht. unfold Qdiv. rewrite Qabs_Qmult, Qabs_Qinv, (Qabs_pos t) by lra.
  reflexivity.
Qed.

(** A quotient by a positive int is no larger than the dividend. *)
Lemma quotient_le_dividend (a b : Z) :
  (1 <= b)%Z -> Qabs (inject_Z a / inject_Z b) <= inject_Z (Z.abs a).
Proof.
  intros Hb.
  assert (Hpos : 0 < inject_Z b).
  { change 0 with (inject_Z 0). rewrite <- Zlt_Qlt. lia. }
  rewrite Qabs_div_pos by exact Hpos.
  change (Qabs (inject_Z a)) with (inject_Z (Z.abs a)).
  apply Qle_shift_div_r; [exact Hpos|].
  rewrite <- inject_Z_mult, <- Zle_Qle. nia.
Qed.

Lemma long_true_divide_in_range (a b : Z) :
  (1 <= b)%Z -> float_range a ->
  Py.long_true_divide a b = Py.Ok (inject_Z a / inject_Z b).
Proof.
  intros Hb Ha. unfold Py.long_true_divide.
  destruct (Z.eqb_spec b 0); [lia|].
  destruct (Qle_bool _ _) eqn:Hover; [|reflexivity].
  exfalso. apply Qle_bool_iff in Hover.
  pose proof (quotient_le_dividend a b Hb) as Hq.
  assert (Hle : inject_Z Py.float_overflow <= inject_Z (Z.abs a))
    by (eapply Qle_trans; eassumption).
  rewrite <- Zle_Qle in Hle. unfold float_range in Ha. lia.
Qed.

Lemma long_true_divide_nonzero (a b : Z) (msg : string) :
  (1 <= b)%Z -> Py.long_true_divide a b <> Py.Raise (Py.ZeroDivisionError msg).
Proof.
  intros Hb. unfold Py.long_true_divide.
  destruct (Z.eqb_spec b 0); [lia|].
  destruct (Qle_bool _ _); discriminate.
Qed.

(** Within the range of a float the methods compute as with exact
    quotients. *)
Lemma binary64_predict_in_range (self : PredictorSimple.WinPredictor)
    (player_data : raw_dict) (o c : option raw_dict) (w : Py.world) :
  float_range (Py.get player_data "wins" 0%Z) ->
  float_range (Py.get player_data "trophies" 0%Z) ->
  Binary64.predict self player_data o c w
  = PredictorSimple.predict self player_data o c w.
Proof.
  intros Hwins Htrophies.
  unfold Binary64.predict, PredictorSimple.predict, PredictorSimple.predict_with.
  cbv zeta.
  rewrite !long_true_divide_in_range by (assumption || lia).
  rewrite !true_div_positive by lia.
  reflexivity.
Qed.

Lemma binary64_statistics_in_range (tag : string) (player_data : raw_dict) :
  float_range (Py.get player_data "wins" 0%Z) ->
  float_range (Py.get player_data "trophies" 0%Z) ->
  PlayersSimple.statistics Py.long_true_divide tag player_data
  = PlayersSimple.statistics Py.true_div tag player_data.
Proof.
  intros Hwins Htrophies. unfold PlayersSimple.statistics. cbv zeta.
  rewrite !long_true_divide_in_range by (assumption || lia).
  rewrite !true_div_positive by lia.
  reflexivity.
Qed.

Lemma statistics_returns (tag : string) (player_data : raw_dict) :
  exists s,
    PlayersSimple.statistics Py.true_div tag player_data = Py.Ok s
    /\ PlayersSimple.player_tag s = tag
    /\ PlayersSimple.win_rate s == heuristic_win_rate player_data
    /\ PlayersSimple.skill_rating s == heuristic_trophy_factor player_data
    /\ PlayersSimple.total_battles s
       = (Py.get player_data "wins" 0 + Py.get player_data "losses" 0)%Z
    /\ PlayersSimple.consistency_score s = 0.7
    /\ PlayersSimple.deck_mastery s = 0.8
    /\ PlayersSimple.average_elixir_cost s = 3.8.
Proof.
  unfold PlayersSimple.statistics. cbv zeta.
  rewrite true_div_positive by lia. cbn [Py.res_bind].
  rewrite true_div_positive by lia. cbn [Py.res_bind].
  eexists. split; [reflexivity|].
  cbn [PlayersSimple.player_tag PlayersSimple.win_rate
       PlayersSimple.total_battles PlayersSimple.skill_rating
       PlayersSimple.consistency_score PlayersSimple.deck_mastery
       PlayersSimple.average_elixir_cost].
  repeat split; try reflexivity.
  unfold heuristic_trophy_factor. rewrite min_eq_Qmin.
  apply Q.min_compat; reflexivity.
Qed.

(** ** Feature computations *)

Lemma heuristic_trophy_factor_le_1 (player_data : raw_dict) :
  heuristic_trophy_factor player_data <= 1.
Proof. unfold heuristic_trophy_factor. apply Q.le_min_l. Qed.

(** C9, as the code has it.  For every player record the divisor
    max(1, wins + losses) is at least 1, so neither division is ever a
    division by zero, also for a player with no recorded battle; and the
    trophy factor min(1, trophies / 6000) is at most 1, and equal to 1 from
    6000 trophies on.  When the wins and the trophies are within the range of
    a float, both divisions return the quotient, and [predict] of the
    heuristic predictor and the statistics endpoint return these values. *)
Theorem feature_computations_total (service : ClashRoyaleService)
    (upper : string -> string) (player_data : raw_dict)
    (o c : option raw_dict) (w : Py.world) (tag : string) :
  let wins := Py.get player_data "wins" 0%Z in
  let losses := Py.get player_data "losses" 0%Z in
  let trophies := Py.get player_data "trophies" 0%Z in
  (1 <= Z.max 1 (wins + losses))%Z
  /\ (forall msg,
        Py.long_true_divide wins (Z.max 1 (wins + losses))
        <> Py.Raise (Py.ZeroDivisionError msg))
  /\ (forall msg,
        Py.long_true_divide trophies 6000 <> Py.Raise (Py.ZeroDivisionError msg))
  /\ ((wins + losses = 0)%Z -> heuristic_win_rate player_data == inject_Z wins)
  /\ heuristic_trophy_factor player_data <= 1
  /\ ((6000 <= trophies)%Z -> heuristic_trophy_factor player_data == 1)
  /\ (float_range wins -> float_range trophies ->
      Py.long_true_divide wins (Z.max 1 (wins + losses))
      = Py.Ok (inject_Z wins / inject_Z (Z.max 1 (wins + losses)))
      /\ Py.long_true_divide trophies 6000
         = Py.Ok (inject_Z trophies / inject_Z 6000)
      /\ (exists r wr tf,
            run (Binary64.predict PredictorSimple.__init__ player_data o c) w
            = Py.Ok r
            /\ input_features r
               = Some (<["player_trophies" := inject_Z trophies]>
                         (<["win_rate" := wr]> (<["trophy_factor" := tf]> ∅)))
            /\ wr == heuristic_win_rate player_data
            /\ tf == heuristic_trophy_factor player_data)
      /\ (get_player (Predictions.clean upper tag) = Py.Ok (Some player_data) ->
          player_data <> ∅ ->
          exists s,
            Binary64.get_player_stats upper tag = PlayersSimple.Returned s
            /\ PlayersSimple.win_rate s == heuristic_win_rate player_data
            /\ PlayersSimple.total_battles s = (wins + losses)%Z
            /\ PlayersSimple.skill_rating s
               == heuristic_trophy_factor player_data)).
Proof.
  cbv zeta.
  split; [lia|].
  split; [intros msg; apply long_true_divide_nonzero; lia|].
  split; [intros msg; apply long_true_divide_nonzero; lia|].
  split.
  { intros H0. unfold heuristic_win_rate. rewrite H0.
    change (inject_Z (Z.max 1 0)) with 1. field. }
  split; [apply heuristic_trophy_factor_le_1|].
  split.
  { intros Hcap. unfold heuristic_trophy_factor. apply Q.min_l.
    apply Qle_shift_div_l; [reflexivity|].
    change 6000 with (inject_Z 6000). rewrite Qmult_1_l.
    rewrite <- Zle_Qle. exact Hcap. }
  intros Hwins Htrophies.
  split; [apply long_true_divide_in_range; [lia|exact Hwins]|].
  split; [apply long_true_divide_in_range; [lia|exact Htrophies]|].
  split.
  { destruct (simple_predict_run PredictorSimple.__init__ player_data o c w eq_refl)
      as (r & w' & wr & tf & Hrun & Hwr & Htf & _ & _ & _ & Hin & _).
    exists r, wr, tf. unfold run.
    rewrite (binary64_predict_in_range _ _ _ _ _ Hwins Htrophies), Hrun. auto. }
  intros Hfetch Hne. unfold Binary64.get_player_stats. rewrite Hfetch.
  unfold Predictions.truthy.
  destruct (decide (player_data = ∅)) as [E|_]; [contradiction|].
  rewrite (binary64_statistics_in_range _ _ Hwins Htrophies).
  destruct (statistics_returns (Predictions.clean upper tag) player_data)
    as (s & Hs & _ & Hw & Hk & Ht & _).
  rewrite Hs. exists s. auto.
Qed.

(** The player with 70 wins, 30 losses and 5000 trophies, whom the example
    service knows as 2PP. *)
Lemma feature_computations_total_witness :
  Py.long_true_divide 70 (Z.max 1 (70 + 30)) = Py.Ok (inject_Z 70 / inject_Z 100)
  /\ (exists r wr tf,
        run (Binary64.predict PredictorSimple.__init__ sample_player None None)
            (Py.scripted [] [] "2025-01-01T00:00:00") = Py.Ok r
        /\ input_features r
           = Some (<["player_trophies" := inject_Z 5000]>
                     (<["win_rate" := wr]> (<["trophy_factor" := tf]> ∅)))
        /\ wr == heuristic_win_rate sample_player
        /\ tf == heuristic_trophy_factor sample_player)
  /\ (exists s,
        Binary64.get_player_stats (clash_service := example_service)
          ascii_upper "#2pp" = PlayersSimple.Returned s
        /\ PlayersSimple.win_rate s == heuristic_win_rate sample_player
        /\ PlayersSimple.total_battles s = 100%Z
        /\ PlayersSimple.skill_rating s == heuristic_trophy_factor sample_player).
Proof.
  destruct (feature_computations_total example_service ascii_upper
              sample_player None None
              (Py.scripted [] [] "2025-01-01T00:00:00") "#2pp")
    as (_ & _ & _ & _ & _ & _ & Hrange).
  destruct Hrange as (Hdiv & _ & Hpredict & Hstats);
    [vm_compute; reflexivity | vm_compute; reflexivity |].
  split; [exact Hdiv|]. split; [exact Hpredict|].
  apply Hstats; [reflexivity | vm_compute; congruence].
Defined.

(** C9 as stated fails: the computations are not total.  For a record with
    10^400 trophies the quotient trophies / 6000 is beyond the range of a
    float and the division raises [OverflowError]: [predict] raises it, and
    the statistics endpoint answers 500. *)
Lemma feature_computation_overflows :
  Py.long_true_divide (10 ^ 400) 6000
  = Py.Raise (Py.OverflowError "integer division result too large for a float")
  /\ run (Binary64.predict PredictorSimple.__init__ huge_player None None)
         (Py.scripted [] [] "2025-01-01T00:00:00")
     = Py.Raise (Py.OverflowError "integer division result too large for a float")
  /\ Binary64.get_player_stats (clash_service := huge_service) ascii_upper "#2pp"
     = PlayersSimple.HTTPException 500.
Proof.
  split; [vm_compute; reflexivity|].
  split; vm_compute; reflexivity.
Qed.

(** ** Readiness *)


(** ** The live probability of the heuristic predictor *)

(** C10: with the same draws of the random generator, two calls of the
    heuristic predictor's [predict_live] return the same win probability and
    the same confidence, whatever the player tags, the battle data, the
    predictor objects and the clock: the win probability is
    0.5 + (u0 - 0.5) * 0.6 and the confidence 0.6 + u1 * 0.3 for the first two
    draws u0 and u1. *)
Theorem live_probability_of_draws_alone
    (self self' : PredictorSimple.WinPredictor) (tag tag' : string)
    (battle_data battle_data' : raw_dict) (w w' : Py.world) :
  (forall i, draw w i = draw w' i) ->
  exists r r',
    run (PredictorSimple.predict_live self tag battle_data) w = Py.Ok r
    /\ run (PredictorSimple.predict_live self' tag' battle_data') w' = Py.Ok r'
    /\ win_probability r = win_probability r'
    /\ confidence r = confidence r'
    /\ win_probability r = 0.5 + (draw w 0 - 0.5) * 0.6
    /\ confidence r = 0.6 + draw w 1 * 0.3.
Proof.
  intros Hdraws.
  destruct (simple_predict_live_run self tag battle_data w)
    as (r & w1 & Hrun & Hp & Hc & _).
  destruct (simple_predict_live_run self' tag' battle_data' w')
    as (r' & w1' & Hrun' & Hp' & Hc' & _).
  exists r, r'. unfold run. rewrite Hrun, Hrun'. cbn [fst].
  rewrite Hp, Hc, Hp', Hc', !Hdraws. repeat split.
Qed.

(** Two live calls for different players in different battles, at different
    times, with the draws 0.25 and 0.5. *)
Lemma live_probability_of_draws_alone_witness :
  exists r r',
    run (PredictorSimple.predict_live PredictorSimple.__init__ "2PP"
           (<["time_remaining" := 150%Z]> ∅))
        (Py.scripted [0.25; 0.5] [1%nat] "2025-01-01T00:00:00") = Py.Ok r
    /\ run (PredictorSimple.predict_live PredictorSimple.__init__ "8QQ"
              (<["time_remaining" := 10%Z]> (<["player_towers" := 1%Z]> ∅)))
           (Py.scripted [0.25; 0.5] [3%nat] "2025-01-02T00:00:00") = Py.Ok r'
    /\ win_probability r = win_probability r'
    /\ confidence r = confidence r'
    /\ win_probability r
       = 0.5 + (draw (Py.scripted [0.25; 0.5] [1%nat] "2025-01-01T00:00:00") 0 - 0.5) * 0.6
    /\ confidence r
       = 0.6 + draw (Py.scripted [0.25; 0.5] [1%nat] "2025-01-01T00:00:00") 1 * 0.3.
Proof.
  apply (live_probability_of_draws_alone
           PredictorSimple.__init__ PredictorSimple.__init__ "2PP" "8QQ").
  intros i. reflexivity.
Defined.

(** ** The heuristic probability *)

Lemma heuristic_probability_clamped (player_data : raw_dict) (wr tf u : Q) :
  wr == heuristic_win_rate player_data ->
  tf == heuristic_trophy_factor player_data ->
  Py.max 0.1 (Py.min 0.9 (wr * 0.6 + tf * 0.4 + (u - 0.5) * 0.3))
  == clamp 0.1 0.9 (heuristic_blend player_data + 0.3 * (u - 0.5)).
Proof.
  intros Hwr Htf. rewrite max_min_clamp by lra.
  apply clamp_compat. unfold heuristic_blend. rewrite Hwr, Htf. ring.
Qed.





(** ** Determinism *)




(** ** Confidence *)

Lemma min_max_clamp (lo hi x : Q) :
  lo <= hi -> Py.min hi (Py.max lo x) == clamp lo hi x.
Proof.
  intros Hle. unfold clamp.
  destruct (min_cases hi (Py.max lo x)) as [[H ->]|[H ->]];
    destruct (max_cases lo x) as [[H' E]|[H' E]]; rewrite E in *;
    cmp_cases; lra.
Qed.

Lemma calculate_confidence_spec (prediction_raw : list (list Q)) (p : Q) :
  Predictor.item00 prediction_raw = Py.Ok p ->
  Predictor._calculate_confidence prediction_raw
  == clamp 0 1 (2 * Qabs (p - 0.5))
  /\ 0 <= Predictor._calculate_confidence prediction_raw <= 1
  /\ (p == 0 \/ p == 1 -> Predictor._calculate_confidence prediction_raw == 1)
  /\ (p == 0.5 -> Predictor._calculate_confidence prediction_raw == 0).
Proof.
  intros Hitem. unfold Predictor._calculate_confidence. rewrite Hitem.
  assert (Hc : Py.min 1.0 (Py.max 0.0 (2 * Qabs (p - 0.5)))
               == clamp 0 1 (2 * Qabs (p - 0.5))).
  { rewrite min_max_clamp by lra. unfold clamp. cmp_cases; lra. }
  rewrite Hc. clear Hc.
  pose proof (clamp_bounds 0 1 (2 * Qabs (p - 0.5))) as Hb.
  split; [reflexivity|]. split; [apply Hb; lra|].
  split.
  - intros Hp. unfold clamp.
    assert (Ha : Qabs (p - 0.5) == 0.5).
    { destruct Hp as [Hp|Hp]; rewrite Hp; reflexivity. }
    cmp_cases; lra.
  - intros Hp. unfold clamp.
    assert (Ha : Qabs (p - 0.5) == 0) by (rewrite Hp; reflexivity).
    cmp_cases; lra.
Qed.




(** ** Factor attribution *)






(** ** Recommendations *)

(** C6, as the code has it: the learned-model predictor's snapshot list is
    the advice of the probability band (two defensive items below 0.4, with
    the synergy warning when the deck synergy score is below 0.5; two pressure
    items above 0.7; two balanced items otherwise) followed by the elixir
    curve advice (patience above an average cost of 4.0, cycle pressure below
    3.0, nothing in between).  It has two to four items and is not cut.  The
    heuristic predictor's list is cut to three items and is exactly the three
    items of the probability band. *)
Theorem snapshot_recommendation_bands (features : feature_dict) (p : Q)
    (player_data : raw_dict) (w : Py.world) :
  let synergy := Py.get features "deck_synergy_score" 0 in
  let cost := Py.get features "average_elixir_cost" 0 in
  (exists band curve,
     Predictor._generate_recommendations features p = band ++ curve
     /\ (p < 0.4 -> synergy < 0.5 ->
         band = [ "Consider a more defensive strategy";
                  "Focus on positive elixir trades";
                  "Your deck synergy is low - consider card substitutions" ])
     /\ (p < 0.4 -> 0.5 <= synergy ->
         band = [ "Consider a more defensive strategy";
                  "Focus on positive elixir trades" ])
     /\ (0.7 < p ->
         band = [ "You have a strong advantage - maintain pressure";
                  "Look for opportunities to take towers" ])
     /\ (0.4 <= p <= 0.7 ->
         band = [ "Match is balanced - adapt to opponent's strategy";
                  "Monitor elixir carefully" ])
     /\ (4.0 < cost -> curve = [ "Heavy deck - be patient with elixir management" ])
     /\ (cost < 3.0 -> curve = [ "Fast cycle deck - maintain constant pressure" ])
     /\ (3.0 <= cost <= 4.0 -> curve = []))
  /\ (2 <= length (Predictor._generate_recommendations features p) <= 4)%nat
  /\ (exists l,
        PredictorSimple._generate_recommendations p player_data w
        = (Py.Ok l, Py.advance w)
        /\ length l = 3%nat
        /\ (p < 0.4 ->
            l = [ "Focus on defensive plays"; "Look for positive elixir trades";
                  "Play more conservatively" ])
        /\ (0.7 < p ->
            l = [ "Maintain aggressive pressure";
                  "Look for tower damage opportunities"; "Keep up the momentum" ])
        /\ (0.4 <= p <= 0.7 ->
            l = [ "Adapt to opponent's strategy"; "Monitor elixir carefully";
                  "Stay flexible with your approach" ])).
Proof.
  cbv zeta. split; [|split].
  - unfold Predictor._generate_recommendations.
    match goal with
    | |- context [if Py.gtb ?x 4.0 then ?l ++ _ else _] =>
        exists l,
          (if Py.gtb x 4.0
           then [ "Heavy deck - be patient with elixir management" ]
           else if Py.ltb x 3.0
                then [ "Fast cycle deck - maintain constant pressure" ]
                else [])
    end.
    split.
    + cmp_cases; rewrite ?app_nil_r; reflexivity.
    + cmp_cases; repeat split; intros; first [reflexivity | lra].
  - unfold Predictor._generate_recommendations.
    cmp_cases; cbn [length app]; lia.
  - apply simple_recommendations_run.
Qed.

(** C6 as stated fails: for probability 0.2, deck synergy score 0.3 and
    average elixir cost 4.5 the learned-model predictor returns four items. *)
Lemma snapshot_recommendations_exceed_three :
  Predictor._generate_recommendations
    (features_of [ ("deck_synergy_score", 0.3); ("average_elixir_cost", 4.5) ])
    0.2
  = [ "Consider a more defensive strategy";
      "Focus on positive elixir trades";
      "Your deck synergy is low - consider card substitutions";
      "Heavy deck - be patient with elixir management" ]
  /\ (3 < length
            (Predictor._generate_recommendations
               (features_of [ ("deck_synergy_score", 0.3%Q);
                              ("average_elixir_cost", 4.5%Q) ])
               0.2%Q))%nat.
Proof. split; [vm_compute; reflexivity | vm_compute; lia]. Qed.

(** C7, as the code has it: the learned-model predictor's live list depends
    on the phase alone (scouting in early_game; push or defend in mid_game by
    probability > 0.6; lead protection or aggression in late_game by
    comparing the towers each side has lost; high-risk advice in overtime)
    and has no closing reminder.  The heuristic predictor's live list has
    three items: one by remaining time (above 120, above 60, otherwise), one
    by probability > 0.6, and last the elixir-management reminder. *)
Theorem live_recommendations_by_phase (features : feature_dict) (p : Q)
    (battle_data : raw_dict) :
  let phase := Predictor._determine_battle_phase battle_data in
  let advice := Predictor._generate_live_recommendations features p battle_data in
  let towers_down := (3 - Py.get battle_data "player_towers" 3)%Z in
  let opponent_towers_down := (3 - Py.get battle_data "opponent_towers" 3)%Z in
  let t := Py.get battle_data "time_remaining" 180%Z in
  let simple_advice :=
    PredictorSimple._generate_live_recommendations p battle_data in
  (phase = "early_game" ->
   advice = [ "Focus on learning opponent's deck"; "Make positive elixir trades" ])
  /\ (phase = "mid_game" -> 0.6 < p -> advice = [ "Build a strong push" ])
  /\ (phase = "mid_game" -> p <= 0.6 -> advice = [ "Defend and counter-attack" ])
  /\ (phase = "late_game" -> (opponent_towers_down < towers_down)%Z ->
      advice = [ "Play defensively - protect your lead" ])
  /\ (phase = "late_game" -> (towers_down <= opponent_towers_down)%Z ->
      advice = [ "Time for aggressive plays" ])
  /\ (phase = "overtime" ->
      advice = [ "High-risk, high-reward plays"; "Focus on tower damage" ])
  /\ (exists by_time by_probability,
        simple_advice
        = [ by_time; by_probability; "Watch your elixir management" ]
        /\ ((120 < t)%Z -> by_time = "Learn opponent's deck rotation")
        /\ ((60 < t <= 120)%Z -> by_time = "Build your main push")
        /\ ((t <= 60)%Z -> by_time = "Go for decisive plays")
        /\ (0.6 < p -> by_probability = "Maintain pressure")
        /\ (p <= 0.6 -> by_probability = "Focus on defense"))
  /\ last simple_advice = Some "Watch your elixir management".
Proof.
  cbv zeta.
  assert (Hlearned :
    forall ph, Predictor._determine_battle_phase battle_data = ph ->
      Predictor._generate_live_recommendations features p battle_data
      = if String.eqb ph "early_game" then
          [ "Focus on learning opponent's deck"; "Make positive elixir trades" ]
        else if String.eqb ph "mid_game" then
          if Py.gtb p 0.6 then [ "Build a strong push" ]
          else [ "Defend and counter-attack" ]
        else if String.eqb ph "late_game" then
          if ((3 - Py.get battle_data "player_towers" 3)
              >? (3 - Py.get battle_data "opponent_towers" 3))%Z
          then [ "Play defensively - protect your lead" ]
          else [ "Time for aggressive plays" ]
        else if String.eqb ph "overtime" then
          [ "High-risk, high-reward plays"; "Focus on tower damage" ]
        else []).
  { intros ph <-. reflexivity. }
  repeat match goal with |- _ /\ _ => split end.
  - intros H. rewrite (Hlearned _ H). reflexivity.
  - intros H Hp. rewrite (Hlearned _ H). cbn [String.eqb Ascii.eqb Bool.eqb].
    apply gtb_true in Hp. rewrite Hp. reflexivity.
  - intros H Hp. rewrite (Hlearned _ H). cbn [String.eqb Ascii.eqb Bool.eqb].
    apply gtb_false in Hp. rewrite Hp. reflexivity.
  - intros H Ht. rewrite (Hlearned _ H). cbn [String.eqb Ascii.eqb Bool.eqb].
    destruct (Z.gtb_spec (3 - Py.get battle_data "player_towers" 3)
                (3 - Py.get battle_data "opponent_towers" 3))%Z; [reflexivity|lia].
  - intros H Ht. rewrite (Hlearned _ H). cbn [String.eqb Ascii.eqb Bool.eqb].
    destruct (Z.gtb_spec (3 - Py.get battle_data "player_towers" 3)
                (3 - Py.get battle_data "opponent_towers" 3))%Z; [lia|reflexivity].
  - intros H. rewrite (Hlearned _ H). reflexivity.
  - unfold PredictorSimple._generate_live_recommendations.
    destruct (Z.gtb_spec (Py.get battle_data "time_remaining" 180) 120)%Z;
      destruct (Z.gtb_spec (Py.get battle_data "time_remaining" 180) 60)%Z;
      cmp_cases; cbn [app]; do 2 eexists; (split; [reflexivity|]);
      repeat split; intros; first [reflexivity | lia | lra].
  - unfold PredictorSimple._generate_live_recommendations.
    destruct (Py.get battle_data "time_remaining" 180 >? 120)%Z;
      destruct (Py.get battle_data "time_remaining" 180 >? 60)%Z;
      destruct (Py.gtb p 0.6); reflexivity.
Qed.

(** C7 as stated fails: in mid_game (90 seconds left) with probability 0.5 the
    learned-model predictor returns the defend advice alone, and in overtime
    its list ends with the tower-damage advice; neither ends with an
    elixir-management reminder. *)
Lemma live_recommendations_lack_reminder :
  Predictor._determine_battle_phase (<["time_remaining" := 90%Z]> ∅) = "mid_game"
  /\ Predictor._generate_live_recommendations (features_of []) 0.5
       (<["time_remaining" := 90%Z]> ∅)
     = [ "Defend and counter-attack" ]
  /\ Predictor._determine_battle_phase (<["time_remaining" := 0%Z]> ∅) = "overtime"
  /\ Predictor._generate_live_recommendations (features_of []) 0.5
       (<["time_remaining" := 0%Z]> ∅)
     = [ "High-risk, high-reward plays"; "Focus on tower damage" ]
  /\ PredictorSimple._generate_live_recommendations 0.5
       (<["time_remaining" := 0%Z]> ∅)
     = [ "Go for decisive plays"; "Focus on defense";
         "Watch your elixir management" ].
Proof. repeat split; vm_compute; reflexivity. Qed.

(** * Further properties of the code *)

(** ** The heuristic predictor: ranges *)





(** ** The heuristic predictor: what its results depend on *)

(** X3: the heuristic [predict] reads three fields of the player record,
    wins, losses and trophies, an absent field counting as 0.  Two player
    records that agree on them give the same prediction and leave the same
    world, whatever their other fields, the opponent data and the battle
    context. *)
Theorem heuristic_predict_reads_three_fields (self : PredictorSimple.WinPredictor)
    (player_data player_data' : raw_dict) (o c o' c' : option raw_dict)
    (w : Py.world) :
  Py.get player_data "wins" 0%Z = Py.get player_data' "wins" 0%Z ->
  Py.get player_data "losses" 0%Z = Py.get player_data' "losses" 0%Z ->
  Py.get player_data "trophies" 0%Z = Py.get player_data' "trophies" 0%Z ->
  PredictorSimple.predict self player_data o c w
  = PredictorSimple.predict self player_data' o' c' w.
Proof.
  intros Hwins Hlosses Htrophies.
  unfold PredictorSimple.predict, PredictorSimple.predict_with,
    PredictorSimple._generate_recommendations.
  rewrite Hwins, Hlosses, Htrophies. reflexivity.
Qed.

(** A record without wins and with a name-like extra field, against one
    with wins 0; opponent data present in one call only. *)
Lemma heuristic_predict_reads_three_fields_witness :
  PredictorSimple.predict PredictorSimple.__init__
    (<["losses" := 4%Z]> (<["trophies" := 3000%Z]> (<["expLevel" := 13%Z]> ∅)))
    None None (Py.scripted [0.5] [] "2025-01-01T00:00:00")
  = PredictorSimple.predict PredictorSimple.__init__
      (<["wins" := 0%Z]> (<["losses" := 4%Z]> (<["trophies" := 3000%Z]> ∅)))
      (Some sample_player) None (Py.scripted [0.5] [] "2025-01-01T00:00:00").
Proof.
  apply (heuristic_predict_reads_three_fields PredictorSimple.__init__);
    reflexivity.
Defined.

(** X4: the heuristic [predict_live] reads the remaining time and the two
    tower counts of the battle data (absent: 180, 3 and 3) and nothing else:
    neither the player tag nor the elixir advantage sent with the battle data
    reaches the result.  The elixir advantage it reports is an integer drawn
    between -2 and 2. *)
Theorem heuristic_live_reads_three_fields (self : PredictorSimple.WinPredictor)
    (tag tag' : string) (battle_data battle_data' : raw_dict) (w : Py.world) :
  Py.get battle_data "time_remaining" 180%Z
  = Py.get battle_data' "time_remaining" 180%Z ->
  Py.get battle_data "player_towers" 3%Z = Py.get battle_data' "player_towers" 3%Z ->
  Py.get battle_data "opponent_towers" 3%Z
  = Py.get battle_data' "opponent_towers" 3%Z ->
  PredictorSimple.predict_live self tag battle_data w
  = PredictorSimple.predict_live self tag' battle_data' w
  /\ exists r b,
       run (PredictorSimple.predict_live self tag battle_data) w = Py.Ok r
       /\ battle_analysis r = Some b
       /\ (-2 <= elixir_advantage b <= 2)%Z.
Proof.
  intros Htime Hplayer Hopponent. split.
  - unfold PredictorSimple.predict_live,
      PredictorSimple._generate_live_recommendations.
    rewrite Htime, Hplayer, Hopponent. reflexivity.
  - unfold run, PredictorSimple.predict_live, Py.randint, Py.bind, Py.random,
      Py.randbelow, Py.ret, Py.utcnow_isoformat.
    cbn [fst]. do 2 eexists. split; [reflexivity|].
    cbn [battle_analysis]. split; [reflexivity|]. cbn [elixir_advantage].
    change (Z.to_nat (2 - -2 + 1)) with 5%nat.
    match goal with
    | |- context [Z.of_nat (?k mod 5)] =>
        assert (k mod 5 < 5)%nat by (apply Nat.mod_upper_bound; lia)
    end.
    lia.
Qed.

(** Battle data that report an elixir advantage of 9 and of -9. *)
Lemma heuristic_live_reads_three_fields_witness :
  PredictorSimple.predict_live PredictorSimple.__init__ "2PP"
    (<["time_remaining" := 45%Z]> (<["elixir_advantage" := 9%Z]> ∅))
    (Py.scripted [0.5; 0.5] [7%nat] "2025-01-01T00:00:00")
  = PredictorSimple.predict_live PredictorSimple.__init__ "8QQ"
      (<["time_remaining" := 45%Z]> (<["elixir_advantage" := (-9)%Z]>
         (<["player_towers" := 3%Z]> ∅)))
      (Py.scripted [0.5; 0.5] [7%nat] "2025-01-01T00:00:00")
  /\ exists r b,
       run (PredictorSimple.predict_live PredictorSimple.__init__ "2PP"
              (<["time_remaining" := 45%Z]> (<["elixir_advantage" := 9%Z]> ∅)))
           (Py.scripted [0.5; 0.5] [7%nat] "2025-01-01T00:00:00") = Py.Ok r
       /\ battle_analysis r = Some b
       /\ (-2 <= elixir_advantage b <= 2)%Z.
Proof.
  apply (heuristic_live_reads_three_fields PredictorSimple.__init__ "2PP" "8QQ");
    reflexivity.
Defined.

(** X5: when the generator's draws lie in [0, 1), the heuristic live
    prediction has a win probability in [0.2, 0.8) and a confidence in
    [0.6, 0.9). *)
Theorem heuristic_live_ranges (self : PredictorSimple.WinPredictor)
    (tag : string) (battle_data : raw_dict) (w : Py.world) :
  0 <= draw w 0 < 1 ->
  0 <= draw w 1 < 1 ->
  exists r,
    run (PredictorSimple.predict_live self tag battle_data) w = Py.Ok r
    /\ 0.2 <= win_probability r < 0.8
    /\ 0.6 <= confidence r < 0.9.
Proof.
  intros H0 H1.
  destruct (simple_predict_live_run self tag battle_data w)
    as (r & w' & Hrun & Hp & Hc & _).
  exists r. unfold run. rewrite Hrun. split; [reflexivity|].
  rewrite Hp, Hc. repeat split; lra.
Qed.

Lemma heuristic_live_ranges_witness :
  exists r,
    run (PredictorSimple.predict_live PredictorSimple.__init__ "2PP"
           (<["time_remaining" := 45%Z]> ∅))
        (Py.scripted [0; 0.75] [1%nat] "2025-01-01T00:00:00") = Py.Ok r
    /\ 0.2 <= win_probability r < 0.8
    /\ 0.6 <= confidence r < 0.9.
Proof.
  apply (heuristic_live_ranges PredictorSimple.__init__ "2PP"
           (<["time_remaining" := 45%Z]> ∅)
           (Py.scripted [0; 0.75] [1%nat] "2025-01-01T00:00:00"));
    split; vm_compute; congruence.
Defined.

(** X6: in the heuristic live prediction the reported phase is the phase of
    the reported remaining time, and the first recommendation follows it:
    the deck-rotation advice in early_game, the main-push advice in mid_game
    and the decisive-plays advice in late_game and in overtime alike.  Battle
    data without a remaining time are reported as 180 seconds, early_game. *)
Theorem heuristic_live_phase_and_advice (self : PredictorSimple.WinPredictor)
    (tag : string) (battle_data : raw_dict) (w : Py.world) :
  exists r b first rest,
    run (PredictorSimple.predict_live self tag battle_data) w = Py.Ok r
    /\ battle_analysis r = Some b
    /\ recommendations r = first :: rest
    /\ battle_time_remaining b = Py.get battle_data "time_remaining" 180%Z
    /\ current_phase b
       = PredictorSimple._determine_battle_phase (battle_time_remaining b)
    /\ (current_phase b = "early_game"
        <-> first = "Learn opponent's deck rotation")
    /\ (current_phase b = "mid_game" <-> first = "Build your main push")
    /\ (current_phase b = "late_game" \/ current_phase b = "overtime"
        <-> first = "Go for decisive plays")
    /\ (battle_data !! "time_remaining" = None ->
        battle_time_remaining b = 180%Z /\ current_phase b = "early_game").
Proof.
  assert (Hmissing : battle_data !! "time_remaining" = None ->
            Py.get battle_data "time_remaining" 180%Z = 180%Z).
  { intros Hnone. unfold Py.get. rewrite Hnone. reflexivity. }
  unfold run, PredictorSimple.predict_live, Py.randint, Py.bind, Py.random,
    Py.randbelow, Py.ret, Py.utcnow_isoformat.
  cbn [fst].
  unfold PredictorSimple._generate_live_recommendations,
    PredictorSimple._determine_battle_phase.
  destruct (Z.gtb_spec (Py.get battle_data "time_remaining" 180) 120)%Z;
    [|destruct (Z.gtb_spec (Py.get battle_data "time_remaining" 180) 60)%Z;
      [|destruct (Z.gtb_spec (Py.get battle_data "time_remaining" 180) 0)%Z]];
    destruct (Py.gtb _ 0.6); cbn [app];
    do 4 eexists; (split; [reflexivity|]);
    cbn [battle_analysis recommendations battle_time_remaining current_phase];
    (split; [reflexivity|]); (split; [reflexivity|]);
    repeat split; intros;
    cbn [battle_time_remaining current_phase] in *;
    repeat match goal with
           | H : _ \/ _ |- _ => destruct H
           | H : battle_data !! _ = None |- _ => apply Hmissing in H
           | |- context [(?a >? ?b)%Z] => destruct (Z.gtb_spec a b); try lia
           end;
    first [reflexivity | discriminate | lia | tauto].
Qed.

(** ** Features of a player with non-negative statistics *)






(** ** The learned-model predictor: model input *)

(** X8: the model input is one batch of exactly 50 rows of the width of the
    feature vector: the feature vector first, then 49 rows of zeros. *)
Theorem model_input_shape (fe : FeatureEngineer) (features : feature_dict) :
  exists padding,
    Predictor._prepare_model_input features
    = [ features_to_vector features :: padding ]
    /\ length (features_to_vector features :: padding) = 50%nat
    /\ Forall (fun row => row = repeat 0 (length (features_to_vector features)))
         padding.
Proof.
  unfold Predictor._prepare_model_input. cbn [hd length Nat.ltb Nat.leb map app].
  eexists. split; [reflexivity|]. split.
  - cbn [length]. rewrite repeat_length. reflexivity.
  - apply Forall_forall. intros row Hrow.
    apply list_elem_of_In in Hrow. apply repeat_spec in Hrow. exact Hrow.
Qed.

(** ** The learned-model predictor: recommendations *)

(** X11: a feature set without an average elixir cost is read as cost 0, so
    its snapshot recommendations always end with the fast-cycle advice; and a
    feature set without a deck synergy score is read as synergy 0, so below a
    win probability of 0.4 it always gets the low-synergy warning. *)
Theorem snapshot_recommendations_missing_keys (features : feature_dict) (p : Q) :
  (features !! "average_elixir_cost" = None ->
   last (Predictor._generate_recommendations features p)
   = Some "Fast cycle deck - maintain constant pressure")
  /\ (features !! "deck_synergy_score" = None -> p < 0.4 ->
      In "Your deck synergy is low - consider card substitutions"
        (Predictor._generate_recommendations features p)).
Proof.
  unfold Predictor._generate_recommendations, Py.get. split.
  - intros ->. cbn [default]. change (Py.gtb 0 4.0) with false.
    change (Py.ltb 0 3.0) with true. cbv iota.
    cmp_cases; reflexivity.
  - intros -> Hp. cbn [default]. apply ltb_true in Hp. rewrite Hp.
    change (Py.ltb 0 0.5) with true. cbv iota.
    cmp_cases; cbn [app In]; auto.
Qed.

(** X12: the live recommendations of the learned-model predictor are never
    empty and have at most two items.  In late_game the advice to protect
    the lead is given exactly when the player has fewer towers left than the
    opponent (an absent count being 3), and the advice to play aggressively
    otherwise. *)
Theorem live_recommendations_shape (features : feature_dict) (p : Q)
    (battle_data : raw_dict) :
  (1 <= length (Predictor._generate_live_recommendations features p battle_data)
   <= 2)%nat
  /\ (Predictor._determine_battle_phase battle_data = "late_game" ->
      (Predictor._generate_live_recommendations features p battle_data
       = [ "Play defensively - protect your lead" ]
       <-> (Py.get battle_data "player_towers" 3
            < Py.get battle_data "opponent_towers" 3)%Z)
      /\ (Predictor._generate_live_recommendations features p battle_data
          = [ "Time for aggressive plays" ]
          <-> (Py.get battle_data "opponent_towers" 3
               <= Py.get battle_data "player_towers" 3)%Z)).
Proof.
  unfold Predictor._generate_live_recommendations,
    Predictor._determine_battle_phase.
  destruct (Py.get battle_data "time_remaining" 0 >? 120)%Z;
    [|destruct (Py.get battle_data "time_remaining" 0 >? 60)%Z;
      [|destruct (Py.get battle_data "time_remaining" 0 >? 0)%Z]];
    cbn [String.eqb Ascii.eqb Bool.eqb];
    destruct (Py.gtb p 0.6);
    destruct (Z.gtb_spec (3 - Py.get battle_data "player_towers" 3)
                (3 - Py.get battle_data "opponent_towers" 3))%Z;
    cbn [length]; (split; [lia|]); intros Hphase; try discriminate Hphase;
    repeat split; intros; first [reflexivity | discriminate | lia].
Qed.

(** ** The learned-model predictor: probability and confidence *)

(** X13: the learned-model [predict] returns the model's score as the win
    probability without bringing it into [0, 1], together with the extracted
    features, and leaves the world as it found it.  A score of at most 0 or at
    least 1 has confidence 1; a score within [0, 1] has confidence
    2 * |p - 0.5| with no clamping at work. *)
Theorem learned_predict_passes_score (fe : FeatureEngineer)
    (self : Predictor.WinPredictor) (m : TransformerLSTMModel)
    (player_data : raw_dict) (o c : option raw_dict) (w : Py.world) (p : Q) :
  Predictor.is_ready self = true ->
  Predictor.model self = Some m ->
  Predictor.item00
    (m (Predictor._prepare_model_input (extract_features player_data o c)))
  = Py.Ok p ->
  exists r,
    Predictor.predict self player_data o c w = (Py.Ok r, w)
    /\ win_probability r = p
    /\ input_features r = Some (extract_features player_data o c)
    /\ model_version r = Predictor.self_model_version self
    /\ timestamp r = Py.clock w
    /\ (p <= 0 \/ 1 <= p -> confidence r == 1)
    /\ (0 <= p <= 1 -> confidence r == 2 * Qabs (p - 0.5)).
Proof.
  intros Hready Hmodel Hp.
  pose proof (learned_predict_cases self player_data o c w Hready) as H.
  cbv zeta in H. unfold Predictor.call_model in H. rewrite Hmodel, Hp in H.
  eexists. split; [exact H|].
  cbn [win_probability input_features model_version timestamp confidence].
  repeat match goal with |- _ /\ _ => split end; try reflexivity.
  - intros Hout.
    destruct (calculate_confidence_spec _ p Hp) as (Hc & _). rewrite Hc.
    unfold clamp.
    pose proof (Qabs_nonneg (p - 0.5)) as Hn.
    assert (Ha : 0.5 <= Qabs (p - 0.5)).
    { destruct Hout as [Hlow|Hhigh].
      - rewrite Qabs_neg by lra. lra.
      - rewrite Qabs_pos by lra. lra. }
    cmp_cases; lra.
  - intros Hin.
    destruct (calculate_confidence_spec _ p Hp) as (Hc & _). rewrite Hc.
    unfold clamp.
    pose proof (Qabs_nonneg (p - 0.5)) as Hn.
    assert (Ha : Qabs (p - 0.5) <= 0.5).
    { apply Qabs_Qle_condition. lra. }
    cmp_cases; lra.
Qed.

(** The predictor whose model scores 1.5. *)
Lemma learned_predict_passes_score_witness :
  exists r,
    Predictor.predict (feature_engineer := example_engineer)
      overshooting_predictor sample_player None None
      (Py.scripted [] [] "2025-01-01T00:00:00")
    = (Py.Ok r, Py.scripted [] [] "2025-01-01T00:00:00")
    /\ win_probability r = 1.5
    /\ input_features r
       = Some (extract_features (FeatureEngineer := example_engineer)
                 sample_player None None)
    /\ model_version r = Predictor.self_model_version overshooting_predictor
    /\ timestamp r = Py.clock (Py.scripted [] [] "2025-01-01T00:00:00")
    /\ (1.5 <= 0 \/ 1 <= 1.5 -> confidence r == 1)
    /\ (0 <= 1.5 <= 1 -> confidence r == 2 * Qabs (1.5 - 0.5)).
Proof.
  apply (learned_predict_passes_score example_engineer overshooting_predictor
           overshooting_model sample_player None None
           (Py.scripted [] [] "2025-01-01T00:00:00") 1.5);
    reflexivity.
Defined.

(** X14: the confidence of the learned-model predictor is symmetric about
    0.5 (scores p and 1 - p have the same confidence) and grows with the
    distance of the score from 0.5. *)
Theorem confidence_symmetric_monotone (raw raw' : list (list Q)) (p q : Q) :
  Predictor.item00 raw = Py.Ok p ->
  Predictor.item00 raw' = Py.Ok q ->
  (q == 1 - p ->
   Predictor._calculate_confidence raw == Predictor._calculate_confidence raw')
  /\ (Qabs (p - 0.5) <= Qabs (q - 0.5) ->
      Predictor._calculate_confidence raw <= Predictor._calculate_confidence raw').
Proof.
  intros Hp Hq.
  destruct (calculate_confidence_spec raw p Hp) as (Hc & _).
  destruct (calculate_confidence_spec raw' q Hq) as (Hc' & _).
  rewrite Hc, Hc'. split.
  - intros Hsym. apply clamp_compat.
    assert (E : q - 0.5 == - (p - 0.5)) by (rewrite Hsym; ring).
    rewrite E, Qabs_opp. reflexivity.
  - intros Hfar. unfold clamp.
    pose proof (Qabs_nonneg (p - 0.5)). pose proof (Qabs_nonneg (q - 0.5)).
    cmp_cases; lra.
Qed.

Lemma confidence_symmetric_monotone_witness :
  (0.7 == 1 - 0.3 ->
   Predictor._calculate_confidence [ [ 0.3 ] ]
   == Predictor._calculate_confidence [ [ 0.7 ] ])
  /\ (Qabs (0.3 - 0.5) <= Qabs (0.7 - 0.5) ->
      Predictor._calculate_confidence [ [ 0.3 ] ]
      <= Predictor._calculate_confidence [ [ 0.7 ] ]).
Proof.
  apply (confidence_symmetric_monotone [ [ 0.3 ] ] [ [ 0.7 ] ] 0.3 0.7);
    reflexivity.
Defined.

(** ** The learned-model predictor: initialisation *)

(** X15: when the model directory can be created and a new model can be
    built, [initialize] always ends ready: with the loaded weights when the
    weight file exists and loads, and with the new model otherwise, a failed
    load included.  The version and the threshold are kept. *)
Theorem initialize_loads_or_builds (store : model_store)
    (self : Predictor.WinPredictor) (built : TransformerLSTMModel) :
  makedirs store = Py.Ok tt ->
  create_model store = Py.Ok built ->
  Predictor.is_ready (Predictor.initialize store self) = true
  /\ Predictor.model (Predictor.initialize store self)
     = Some (match model_file_exists store, load_weights store with
             | true, Py.Ok loaded => loaded
             | _, _ => built
             end)
  /\ Predictor.self_model_version (Predictor.initialize store self)
     = Predictor.self_model_version self
  /\ Predictor.confidence_threshold (Predictor.initialize store self)
     = Predictor.confidence_threshold self.
Proof.
  intros Hdir Hbuilt.
  unfold Predictor.initialize, Predictor._load_model, Predictor._create_new_model.
  rewrite Hdir, Hbuilt.
  destruct (model_file_exists store); [destruct (load_weights store)|];
    [| destruct (load_leaves store) |]; repeat split.
Qed.

(** A weight file that exists but does not load. *)
Lemma initialize_loads_or_builds_witness :
  Predictor.is_ready
    (Predictor.initialize
       (mkModelStore (Py.Ok tt) true (Py.Raise (Py.ValueError "corrupt weights"))
          (Py.Ok example_model) (Some fresh_model) None)
       (Predictor.__init__ 0.7)) = true
  /\ Predictor.model
       (Predictor.initialize
          (mkModelStore (Py.Ok tt) true (Py.Raise (Py.ValueError "corrupt weights"))
             (Py.Ok example_model) (Some fresh_model) None)
          (Predictor.__init__ 0.7))
     = Some example_model.
Proof.
  destruct (initialize_loads_or_builds
              (mkModelStore (Py.Ok tt) true
                 (Py.Raise (Py.ValueError "corrupt weights"))
                 (Py.Ok example_model) (Some fresh_model) None)
              (Predictor.__init__ 0.7) example_model eq_refl eq_refl)
    as (Hready & Hmodel & _).
  split; [exact Hready | exact Hmodel].
Defined.

(** X16: readiness after [initialize] is decided by that call alone.  When
    neither loading nor building gives a model, the predictor ends not ready
    even if it was ready before, and [predict] and [predict_live] fail with
    the not-ready error.  Its model is then what the failed steps left: the
    object [_create_new_model] had constructed; if that constructor raised,
    the object [_load_model] had constructed when the weight file exists;
    and the former model only when no constructor ran, or when the model
    directory could not be created.  Version and threshold are kept. *)
Theorem failed_initialize_disables (fe : FeatureEngineer) (store : model_store)
    (self : Predictor.WinPredictor) (load_error build_error : Py.exn)
    (player_data : raw_dict) (o c : option raw_dict)
    (tag : string) (battle_data : raw_dict) (w : Py.world) :
  load_weights store = Py.Raise load_error ->
  create_model store = Py.Raise build_error ->
  Predictor.is_ready (Predictor.initialize store self) = false
  /\ Predictor.model (Predictor.initialize store self)
     = match makedirs store with
       | Py.Raise _ => Predictor.model self
       | Py.Ok _ =>
           match create_leaves store with
           | Some unbuilt => Some unbuilt
           | None =>
               if model_file_exists store then
                 match load_leaves store with
                 | Some unloaded => Some unloaded
                 | None => Predictor.model self
                 end
               else Predictor.model self
           end
       end
  /\ Predictor.self_model_version (Predictor.initialize store self)
     = Predictor.self_model_version self
  /\ Predictor.confidence_threshold (Predictor.initialize store self)
     = Predictor.confidence_threshold self
  /\ Predictor.predict (Predictor.initialize store self) player_data o c w
     = (Py.Raise EngineNotReady, w)
  /\ Predictor.predict_live (Predictor.initialize store self) tag battle_data w
     = (Py.Raise EngineNotReady, w).
Proof.
  intros Hload Hbuild.
  assert (Hready : Predictor.is_ready (Predictor.initialize store self) = false).
  { unfold Predictor.initialize, Predictor._load_model,
      Predictor._create_new_model.
    rewrite Hload, Hbuild.
    destruct (makedirs store) as [[]|e];
      [destruct (model_file_exists store)|]; reflexivity. }
  split; [exact Hready|].
  split; [|split; [|split; [|split]]].
  - unfold Predictor.initialize, Predictor._load_model,
      Predictor._create_new_model.
    rewrite Hload, Hbuild.
    destruct (makedirs store) as [[]|e]; [|reflexivity].
    destruct (model_file_exists store);
      destruct (create_leaves store); try destruct (load_leaves store);
      reflexivity.
  - unfold Predictor.initialize, Predictor._load_model,
      Predictor._create_new_model.
    rewrite Hload, Hbuild.
    destruct (makedirs store) as [[]|e]; [|reflexivity].
    destruct (model_file_exists store);
      destruct (create_leaves store); try destruct (load_leaves store);
      reflexivity.
  - unfold Predictor.initialize, Predictor._load_model,
      Predictor._create_new_model.
    rewrite Hload, Hbuild.
    destruct (makedirs store) as [[]|e]; [|reflexivity].
    destruct (model_file_exists store);
      destruct (create_leaves store); try destruct (load_leaves store);
      reflexivity.
  - unfold Predictor.predict. rewrite Hready. reflexivity.
  - unfold Predictor.predict_live. rewrite Hready. reflexivity.
Qed.

(** The ready example predictor, initialised again on a store where nothing
    succeeds: it ends not ready and holds the unbuilt model, not the model
    it had. *)
Lemma failed_initialize_disables_witness :
  Predictor.is_ready example_predictor = true
  /\ Predictor.model example_predictor = Some example_model
  /\ Predictor.is_ready (Predictor.initialize failing_store example_predictor)
     = false
  /\ Predictor.model (Predictor.initialize failing_store example_predictor)
     = Some fresh_model
  /\ Predictor.predict (feature_engineer := example_engineer)
       (Predictor.initialize failing_store example_predictor)
       sample_player None None (Py.scripted [] [] "2025-01-01T00:00:00")
     = (Py.Raise EngineNotReady, Py.scripted [] [] "2025-01-01T00:00:00")
  /\ Predictor.predict_live (feature_engineer := example_engineer)
       (Predictor.initialize failing_store example_predictor)
       "2PP" ∅ (Py.scripted [] [] "2025-01-01T00:00:00")
     = (Py.Raise EngineNotReady, Py.scripted [] [] "2025-01-01T00:00:00").
Proof.
  split; [reflexivity|]. split; [reflexivity|].
  destruct (failed_initialize_disables example_engineer failing_store
              example_predictor (Py.ValueError "corrupt weights")
              (Py.ValueError "cannot build") sample_player None None "2PP" ∅
              (Py.scripted [] [] "2025-01-01T00:00:00") eq_refl eq_refl)
    as (Hready & Hmodel & _ & _ & Hpredict & Hlive).
  split; [exact Hready|]. split; [exact Hmodel|].
  split; [exact Hpredict | exact Hlive].
Defined.

(** ** Battle data without a remaining time *)

(** X17: the learned-model predictor reads battle data without a remaining
    time as 0 seconds left: its battle analysis reports the phase overtime
    and its live recommendations are the two overtime items.  (The heuristic
    predictor reads the same data as 180 seconds, early_game.)  In every
    case the reported phase is the phase of the reported time. *)
Theorem learned_battle_state_missing_time (features : feature_dict) (p : Q)
    (battle_data : raw_dict) :
  battle_data !! "time_remaining" = None ->
  battle_time_remaining (Predictor._analyze_battle_state battle_data) = 0%Z
  /\ current_phase (Predictor._analyze_battle_state battle_data) = "overtime"
  /\ Predictor._generate_live_recommendations features p battle_data
     = [ "High-risk, high-reward plays"; "Focus on tower damage" ]
  /\ (forall other : raw_dict,
        current_phase (Predictor._analyze_battle_state other)
        = PredictorSimple._determine_battle_phase
            (battle_time_remaining (Predictor._analyze_battle_state other))).
Proof.
  intros Hnone.
  unfold Predictor._analyze_battle_state, Predictor._generate_live_recommendations,
    Predictor._determine_battle_phase, Py.get.
  rewrite Hnone. cbn [default battle_time_remaining current_phase].
  repeat split.
Qed.

(** Battle data that hold the tower counts only. *)
Lemma learned_battle_state_missing_time_witness :
  battle_time_remaining
    (Predictor._analyze_battle_state (<["player_towers" := 2%Z]> ∅)) = 0%Z
  /\ current_phase
       (Predictor._analyze_battle_state (<["player_towers" := 2%Z]> ∅))
     = "overtime"
  /\ Predictor._generate_live_recommendations (features_of []) 0.9
       (<["player_towers" := 2%Z]> ∅)
     = [ "High-risk, high-reward plays"; "Focus on tower damage" ]
  /\ (forall other : raw_dict,
        current_phase (Predictor._analyze_battle_state other)
        = PredictorSimple._determine_battle_phase
            (battle_time_remaining (Predictor._analyze_battle_state other))).
Proof.
  apply (learned_battle_state_missing_time (features_of []) 0.9
           (<["player_towers" := 2%Z]> ∅)).
  reflexivity.
Defined.

(** ** The service's answer *)

Lemma truthy_None (d : option raw_dict) :
  Predictions.truthy d = None <-> d = None \/ d = Some ∅.
Proof.
  unfold Predictions.truthy. destruct d as [d|].
  - destruct (decide (d = ∅)) as [->|Hne].
    + split; auto.
    + split; [discriminate|]. intros [H|H]; [discriminate|].
      injection H as H. contradiction.
  - split; auto.
Qed.

Lemma truthy_Some (d : option raw_dict) (d' : raw_dict) :
  Predictions.truthy d = Some d' <-> d = Some d' /\ d' <> ∅.
Proof.
  unfold Predictions.truthy. destruct d as [d|].
  - destruct (decide (d = ∅)) as [->|Hne].
    + split; [discriminate|]. intros [H Hne]. injection H as <-. contradiction.
    + split.
      * intros H. injection H as <-. auto.
      * intros [H _]. exact H.
  - split; [discriminate|]. intros [H _]. discriminate H.
Qed.

(** ** The statistics endpoint *)

(** X18: the statistics endpoint answers 404 exactly when the service
    returns nothing or an empty record for the cleaned tag.  It answers 500
    when the call of the service raises, and when the service returns a
    record on which a division raises.  A record whose wins and trophies are
    within the range of a float gets statistics carrying the cleaned tag, the
    total wins + losses and the three placeholder scores 0.7, 0.8 and 3.8. *)
Theorem player_stats_not_found (service : ClashRoyaleService)
    (upper : string -> string) (tag : string) :
  (Binary64.get_player_stats upper tag = PlayersSimple.HTTPException 404
   <-> get_player (Predictions.clean upper tag) = Py.Ok None
       \/ get_player (Predictions.clean upper tag) = Py.Ok (Some ∅))
  /\ (forall e,
        get_player (Predictions.clean upper tag) = Py.Raise e ->
        Binary64.get_player_stats upper tag = PlayersSimple.HTTPException 500)
  /\ (forall player_data e,
        get_player (Predictions.clean upper tag) = Py.Ok (Some player_data) ->
        player_data <> ∅ ->
        PlayersSimple.statistics Py.long_true_divide
          (Predictions.clean upper tag) player_data = Py.Raise e ->
        Binary64.get_player_stats upper tag = PlayersSimple.HTTPException 500)
  /\ (forall player_data,
        get_player (Predictions.clean upper tag) = Py.Ok (Some player_data) ->
        player_data <> ∅ ->
        float_range (Py.get player_data "wins" 0%Z) ->
        float_range (Py.get player_data "trophies" 0%Z) ->
        exists s,
          Binary64.get_player_stats upper tag = PlayersSimple.Returned s
          /\ PlayersSimple.player_tag s = Predictions.clean upper tag
          /\ PlayersSimple.total_battles s
             = (Py.get player_data "wins" 0 + Py.get player_data "losses" 0)%Z
          /\ PlayersSimple.consistency_score s = 0.7
          /\ PlayersSimple.deck_mastery s = 0.8
          /\ PlayersSimple.average_elixir_cost s = 3.8).
Proof.
  split; [|split; [|split]].
  - unfold Binary64.get_player_stats.
    destruct (get_player (Predictions.clean upper tag)) as [fetched|e].
    + destruct (Predictions.truthy fetched) as [player_data|] eqn:Htruthy.
      * apply truthy_Some in Htruthy. destruct Htruthy as [-> Hne].
        split.
        -- destruct (PlayersSimple.statistics _ _ _); discriminate.
        -- intros [H|H]; [discriminate H|].
           injection H as H. contradiction.
      * apply truthy_None in Htruthy.
        split; [intros _|reflexivity].
        destruct Htruthy as [-> | ->]; auto.
    + split; [discriminate|]. intros [H|H]; discriminate H.
  - intros e He. unfold Binary64.get_player_stats. rewrite He. reflexivity.
  - intros player_data e Hfetch Hne Hraise.
    unfold Binary64.get_player_stats. rewrite Hfetch.
    assert (Htruthy : Predictions.truthy (Some player_data) = Some player_data)
      by (apply truthy_Some; auto).
    rewrite Htruthy, Hraise. reflexivity.
  - intros player_data Hfetch Hne Hwins Htrophies.
    unfold Binary64.get_player_stats. rewrite Hfetch.
    assert (Htruthy : Predictions.truthy (Some player_data) = Some player_data)
      by (apply truthy_Some; auto).
    rewrite Htruthy.
    rewrite (binary64_statistics_in_range _ _ Hwins Htrophies).
    destruct (statistics_returns (Predictions.clean upper tag) player_data)
      as (s & Hs & Htag & _ & _ & Htotal & Hc & Hd & Ha).
    rewrite Hs. exists s. auto 10.
Qed.

(** ** The prediction endpoints *)

Lemma simple_predict_version (self : PredictorSimple.WinPredictor)
    (player_data : raw_dict) (o c : option raw_dict) (w w' : Py.world)
    (r : prediction) :
  PredictorSimple.predict self player_data o c w = (Py.Ok r, w') ->
  model_version r = PredictorSimple.self_model_version self.
Proof.
  unfold PredictorSimple.predict, PredictorSimple.predict_with.
  destruct (PredictorSimple.is_ready self); cbn [negb]; [|discriminate].
  unfold Py.bind at 1. unfold Py.lift at 1.
  rewrite true_div_positive by lia.
  unfold Py.bind at 1. unfold Py.lift at 1.
  rewrite true_div_positive by lia.
  unfold Py.uniform.
  unfold Py.bind, Py.random, Py.ret, Py.utcnow_isoformat.
  match goal with
  | |- context [PredictorSimple._generate_recommendations ?p ?d ?w6] =>
      destruct (simple_recommendations_run p d w6) as (l & Hl & _); rewrite Hl
  end.
  intros H. injection H as <- _. reflexivity.
Qed.

(** X19: the prediction endpoint never answers 404.  When the service knows
    no such player (it returns nothing or an empty record) the endpoint
    raises 404 inside its [try] block, the block's handler takes it, and the
    answer is 500, Internal server error; the statistics endpoint answers 404
    to the same service reply. *)
Theorem predict_endpoint_hides_not_found (service : ClashRoyaleService)
    (Response : Type) (db : Session Response) (upper : string -> string)
    (tag : string) (request : Predictions.PredictionRequest) (w : Py.world)
    (fetched : option raw_dict) :
  get_player (Predictions.clean upper tag) = Py.Ok fetched ->
  fetched = None \/ fetched = Some ∅ ->
  Predictions.predict_win_probability upper tag request w
  = (Predictions.HTTPException 500 "Internal server error", w)
  /\ PlayersSimple.get_player_stats (Predictions.clean upper tag) fetched
     = PlayersSimple.HTTPException 404
  /\ (forall tag' request' w' status detail w'',
        Predictions.predict_win_probability upper tag' request' w'
        = (Predictions.HTTPException status detail, w'') ->
        status = 500%Z).
Proof.
  intros Hfetch Hmissing.
  split; [|split].
  - unfold Predictions.predict_win_probability,
      Predictions.predict_win_probability_with, Predictions.except_Exception,
      Predictions.bind at 1, Predictions.ask at 1.
    rewrite Hfetch. apply truthy_None in Hmissing. rewrite Hmissing.
    reflexivity.
  - destruct Hmissing as [->| ->]; reflexivity.
  - intros tag' request' w' status detail w'' H.
    unfold Predictions.predict_win_probability,
      Predictions.predict_win_probability_with, Predictions.except_Exception in H.
    match type of H with
    | (match ?body with _ => _ end) = _ => destruct body as [[a|e] w1]
    end; [discriminate H|].
    injection H as <- _ _. reflexivity.
Qed.

(** A tag the example service does not know. *)
Lemma predict_endpoint_hides_not_found_witness :
  Predictions.predict_win_probability (clash_service := example_service)
    (db := example_session) ascii_upper "#9zz"
    (Predictions.mkPredictionRequest None None)
    (Py.scripted [] [] "2025-01-01T00:00:00")
  = (Predictions.HTTPException 500 "Internal server error",
     Py.scripted [] [] "2025-01-01T00:00:00")
  /\ PlayersSimple.get_player_stats (Predictions.clean ascii_upper "#9zz") None
     = PlayersSimple.HTTPException 404.
Proof.
  destruct (predict_endpoint_hides_not_found example_service Prediction.t
              example_session ascii_upper "#9zz"
              (Predictions.mkPredictionRequest None None)
              (Py.scripted [] [] "2025-01-01T00:00:00") None eq_refl
              (or_introl eq_refl))
    as (H500 & H404 & _).
  split; [exact H500 | exact H404].
Defined.

(** X20: when the service returns a record for the cleaned tag whose wins
    and trophies are within the range of a float, and the session and the
    response schema do not fail, the prediction endpoint answers with the
    stored row: it carries the cleaned tag, the type api_request, the
    request's battle context, the version of the heuristic predictor, a win
    probability between 0.1 and 0.9 and, as the player-skill impact, the
    player's win rate. *)
Theorem predict_endpoint_stores_prediction (service : ClashRoyaleService)
    (Response : Type) (db : Session Response) (upper : string -> string)
    (tag : string) (request : Predictions.PredictionRequest) (w : Py.world)
    (player_data : raw_dict) (view : Prediction.t -> Response) :
  get_player (Predictions.clean upper tag) = Py.Ok (Some player_data) ->
  player_data <> ∅ ->
  float_range (Py.get player_data "wins" 0%Z) ->
  float_range (Py.get player_data "trophies" 0%Z) ->
  (forall row, save_prediction row = Py.Ok row) ->
  (forall row, from_orm row = Py.Ok (view row)) ->
  exists row w',
    Binary64.predict_win_probability upper tag request w
    = (Predictions.Returned (view row), w')
    /\ Prediction.player_tag row = Predictions.clean upper tag
    /\ Prediction.prediction_type row = "api_request"
    /\ Prediction.battle_state row = Predictions.battle_context request
    /\ Prediction.model_version row = "1.0.0-simple"
    /\ 0.1 <= Prediction.win_probability row <= 0.9
    /\ Prediction.player_skill_impact row == heuristic_win_rate player_data.
Proof.
  intros Hfetch Hne Hwins Htrophies Hsave Hview.
  destruct (simple_predict_run Predictions.win_predictor player_data
              (Predictions.opponent_data request)
              (Predictions.battle_context request) w eq_refl)
    as (r & w' & wr & tf & Hrun & Hwr & Htf & Hp & _ & Hf & Hin & _).
  assert (Hbounds : 0.1 <= win_probability r <= 0.9).
  { rewrite Hp, (heuristic_probability_clamped player_data wr tf _ Hwr Htf).
    apply clamp_bounds. lra. }
  pose proof (simple_predict_version _ _ _ _ _ _ _ Hrun) as Hversion.
  rewrite <- (binary64_predict_in_range _ _ _ _ _ Hwins Htrophies) in Hrun.
  unfold Binary64.predict in Hrun.
  unfold Binary64.predict_win_probability,
    Predictions.predict_win_probability_with, Predictions.except_Exception,
    Predictions.bind at 1, Predictions.ask at 1.
  rewrite Hfetch.
  assert (Htruthy : Predictions.truthy (Some player_data) = Some player_data)
    by (apply truthy_Some; auto).
  rewrite Htruthy.
  unfold Predictions.bind at 1, Predictions.call. rewrite Hrun.
  rewrite Hin, Hf.
  unfold Predictions.bind, Predictions.field, Predictions.item, Predictions.ret,
    Predictions.ask.
  cbn [find fst snd String.eqb Ascii.eqb Bool.eqb].
  rewrite Hsave, Hview.
  eexists _, _. split; [reflexivity|].
  cbn [Prediction.player_tag Prediction.prediction_type Prediction.battle_state
       Prediction.model_version Prediction.win_probability
       Prediction.player_skill_impact].
  repeat split; try reflexivity; try apply Hbounds.
  - rewrite Hversion. reflexivity.
  - exact Hwr.
Qed.

(** The player 2PP of the example service, asked for as [#2pp]. *)
Lemma predict_endpoint_stores_prediction_witness :
  exists row w',
    Binary64.predict_win_probability (clash_service := example_service)
      (db := example_session) ascii_upper "#2pp"
      (Predictions.mkPredictionRequest None (Some (<["time_remaining" := 90%Z]> ∅)))
      (Py.scripted [0.5; 0.5] [] "2025-01-01T00:00:00")
    = (Predictions.Returned row, w')
    /\ Prediction.player_tag row = "2PP"
    /\ Prediction.prediction_type row = "api_request"
    /\ Prediction.battle_state row = Some (<["time_remaining" := 90%Z]> ∅)
    /\ Prediction.model_version row = "1.0.0-simple"
    /\ 0.1 <= Prediction.win_probability row <= 0.9
    /\ Prediction.player_skill_impact row == heuristic_win_rate sample_player.
Proof.
  apply (predict_endpoint_stores_prediction example_service Prediction.t
           example_session ascii_upper "#2pp"
           (Predictions.mkPredictionRequest None
              (Some (<["time_remaining" := 90%Z]> ∅)))
           (Py.scripted [0.5; 0.5] [] "2025-01-01T00:00:00")
           sample_player (fun row => row));
    first [reflexivity | vm_compute; congruence | vm_compute; reflexivity].
Defined.

(** X21: the live endpoint answers that the player is not in a battle
    exactly when the service returns nothing or empty battle data; otherwise
    it answers with the cleaned tag, the battle data as received and a live
    prediction whose battle analysis reports their remaining time (180 when
    absent).  It fails, with status 500, only when the service call fails. *)
Theorem live_endpoint_answers (service : ClashRoyaleService)
    (upper : string -> string) (tag : string) (w : Py.world)
    (fetched : option raw_dict) :
  get_live_battle_data (Predictions.clean upper tag) = Py.Ok fetched ->
  (fetched = None \/ fetched = Some ∅ ->
   Predictions.get_live_prediction upper tag w
   = (Predictions.Returned
        (Predictions.NotInBattle "Player is not currently in a battle"), w))
  /\ (forall battle_data,
        fetched = Some battle_data -> battle_data <> ∅ ->
        exists r w' b,
          Predictions.get_live_prediction upper tag w
          = (Predictions.Returned
               (Predictions.InBattle (Predictions.clean upper tag) r battle_data),
             w')
          /\ battle_analysis r = Some b
          /\ battle_time_remaining b = Py.get battle_data "time_remaining" 180%Z
          /\ model_version r = "1.0.0-simple")
  /\ (forall tag' w' e,
        get_live_battle_data (Predictions.clean upper tag') = Py.Raise e ->
        Predictions.get_live_prediction upper tag' w'
        = (Predictions.HTTPException 500 "Internal server error", w')).
Proof.
  intros Hfetch. split; [|split].
  - intros Hmissing.
    unfold Predictions.get_live_prediction, Predictions.except_Exception,
      Predictions.bind at 1, Predictions.ask.
    rewrite Hfetch. apply truthy_None in Hmissing. rewrite Hmissing.
    reflexivity.
  - intros battle_data -> Hne.
    unfold Predictions.get_live_prediction, Predictions.except_Exception,
      Predictions.bind at 1, Predictions.ask.
    rewrite Hfetch.
    assert (Htruthy : Predictions.truthy (Some battle_data) = Some battle_data)
      by (apply truthy_Some; auto).
    rewrite Htruthy.
    unfold Predictions.bind, Predictions.call, Predictions.ret,
      PredictorSimple.predict_live, Py.randint, Py.bind, Py.random,
      Py.randbelow, Py.ret, Py.utcnow_isoformat.
    do 3 eexists. split; [reflexivity|].
    cbn [battle_analysis model_version battle_time_remaining].
    repeat split.
  - intros tag' w' e Hraise.
    unfold Predictions.get_live_prediction, Predictions.except_Exception,
      Predictions.bind at 1, Predictions.ask.
    rewrite Hraise. reflexivity.
Qed.

(** The player 2PP of the example service, 90 seconds before the end. *)
Lemma live_endpoint_answers_witness :
  exists r w' b,
    Predictions.get_live_prediction (clash_service := example_service)
      ascii_upper "#2pp" (Py.scripted [0.5; 0.5] [] "2025-01-01T00:00:00")
    = (Predictions.Returned
         (Predictions.InBattle (Predictions.clean ascii_upper "#2pp") r
            (<["time_remaining" := 90%Z]> ∅)), w')
    /\ battle_analysis r = Some b
    /\ battle_time_remaining b
       = Py.get (<["time_remaining" := 90%Z]> ∅ : raw_dict) "time_remaining" 180%Z
    /\ model_version r = "1.0.0-simple".
Proof.
  destruct (live_endpoint_answers example_service ascii_upper "#2pp"
              (Py.scripted [0.5; 0.5] [] "2025-01-01T00:00:00")
              (Some (<["time_remaining" := 90%Z]> ∅)) eq_refl)
    as (_ & Hin & _).
  apply (Hin (<["time_remaining" := 90%Z]> ∅) eq_refl).
  apply insert_non_empty.
Defined.

(** X22: the feedback endpoint answers an unknown prediction id with 500,
    Internal server error: the 404 it raises inside its [try] block is taken
    by the block's handler.  For a known prediction it stores the feedback
    and confirms with the same id, and answers 500 when storing fails. *)
Theorem feedback_endpoint_answers (Response : Type) (db : Session Response)
    (prediction_id rating : Z) (comment : option string) (helpful : option bool)
    (w : Py.world) :
  (find_prediction prediction_id = Py.Ok None ->
   Predictions.submit_prediction_feedback prediction_id rating comment helpful w
   = (Predictions.HTTPException 500 "Internal server error", w))
  /\ (forall row,
        find_prediction prediction_id = Py.Ok (Some row) ->
        save_feedback (PredictionFeedback.mk prediction_id rating comment helpful)
        = Py.Ok tt ->
        Predictions.submit_prediction_feedback prediction_id rating comment helpful w
        = (Predictions.Returned
             (Predictions.mkFeedbackAnswer "Feedback submitted successfully"
                prediction_id), w))
  /\ (forall row e,
        find_prediction prediction_id = Py.Ok (Some row) ->
        save_feedback (PredictionFeedback.mk prediction_id rating comment helpful)
        = Py.Raise e ->
        Predictions.submit_prediction_feedback prediction_id rating comment helpful w
        = (Predictions.HTTPException 500 "Internal server error", w))
  /\ (forall status detail w',
        Predictions.submit_prediction_feedback prediction_id rating comment helpful w
        = (Predictions.HTTPException status detail, w') ->
        status = 500%Z).
Proof.
  unfold Predictions.submit_prediction_feedback, Predictions.except_Exception,
    Predictions.bind, Predictions.ask, Predictions.ret, Predictions.throw.
  repeat match goal with |- _ /\ _ => split end.
  - intros ->. reflexivity.
  - intros row -> ->. reflexivity.
  - intros row e -> ->. reflexivity.
  - intros status detail w'.
    destruct (find_prediction prediction_id) as [[row|]|e];
      [destruct (save_feedback _) as [[]|e]|..];
      intros H; try discriminate H; injection H as <- _ _; reflexivity.
Qed.

(** ** The startup script *)

(** X23: the version check lets the script continue exactly for Python 3.9
    and later, compared as the pair (major, minor): major above 3, or major 3
    with minor at least 9.  For every older version it prints the
    requirement and exits with status 1.  The release level and the other
    components of the version never matter. *)
Theorem python_version_gate (h : StartSimple.host) :
  let v := StartSimple.version_info h in
  (fst (StartSimple.check_python_version h) = StartSimple.Done tt
   <-> (3 < StartSimple.major v
        \/ (StartSimple.major v = 3 /\ 9 <= StartSimple.minor v))%Z)
  /\ (StartSimple.check_python_version h
      = (StartSimple.SystemExit 1,
         [ StartSimple.Stdout "❌ Python 3.9 or higher is required" ])
      <-> (StartSimple.major v < 3
           \/ (StartSimple.major v = 3 /\ StartSimple.minor v < 9))%Z)
  /\ (fst (StartSimple.check_python_version h) = StartSimple.Done tt
      \/ fst (StartSimple.check_python_version h) = StartSimple.SystemExit 1).
Proof.
  cbv zeta. unfold StartSimple.check_python_version, StartSimple.as_tuple.
  cbn [StartSimple.tuple_lt].
  destruct (Z.eqb_spec (StartSimple.major (StartSimple.version_info h)) 3)
    as [Hmajor|Hmajor].
  - destruct (Z.eqb_spec (StartSimple.minor (StartSimple.version_info h)) 9)
      as [Hminor|Hminor].
    + cbn. repeat split; intros; auto; try lia; discriminate.
    + destruct (Z.ltb_spec (StartSimple.minor (StartSimple.version_info h)) 9);
        cbn; repeat split; intros; auto; try lia; discriminate.
  - destruct (Z.ltb_spec (StartSimple.major (StartSimple.version_info h)) 3);
      cbn; repeat split; intros; auto; try lia; discriminate.
Qed.

(** ** Polling the backend *)

Lemma seq_emit {A} (e : StartSimple.event) (c : StartSimple.S A) :
  StartSimple.seq (StartSimple.emit e) c = (fst c, e :: snd c).
Proof. destruct c as [r t]. reflexivity. Qed.

Lemma seq_print {A} (line : string) (c : StartSimple.S A) :
  StartSimple.seq (StartSimple.print line) c
  = (fst c, StartSimple.Stdout line :: snd c).
Proof. apply seq_emit. Qed.

Lemma poll_step (h : StartSimple.host) (n i : nat) :
  StartSimple.poll h (S n) i
  = if StartSimple.answered_200 (StartSimple.health h i)
    then (StartSimple.Done true,
          [ StartSimple.HealthGet "http://127.0.0.1:8000/health";
            StartSimple.Stdout "✅ Backend is ready!" ])
    else if StartSimple.sleep_interrupted h i
    then (StartSimple.KeyboardInterrupt,
          [ StartSimple.HealthGet "http://127.0.0.1:8000/health" ])
    else (fst (StartSimple.poll h n (S i)),
          StartSimple.HealthGet "http://127.0.0.1:8000/health"
          :: StartSimple.Sleep 1
          :: StartSimple.Stdout ("   Attempt " +:+ pretty (i + 1)%nat +:+ "/20...")
          :: snd (StartSimple.poll h n (S i))).
Proof.
  cbn [StartSimple.poll]. rewrite seq_emit.
  destruct (StartSimple.answered_200 (StartSimple.health h i));
    [reflexivity|].
  destruct (StartSimple.sleep_interrupted h i);
    rewrite ?seq_emit, ?seq_print; reflexivity.
Qed.

Lemma ready_iff (h : StartSimple.host) (i : nat) :
  StartSimple.answered_200 (StartSimple.health h i) = true
  <-> StartSimple.health h i = StartSimple.Status 200.
Proof.
  unfold StartSimple.answered_200.
  destruct (StartSimple.health h i) as [code|].
  - destruct (Z.eqb_spec code 200) as [->|Hne]; split; intros H;
      try reflexivity; try discriminate. injection H as H. contradiction.
  - split; discriminate.
Qed.

Lemma poll_never_ready (h : StartSimple.host) (n i : nat) :
  (forall j, StartSimple.sleep_interrupted h j = false) ->
  (forall k, (k < n)%nat -> StartSimple.health h (i + k) <> StartSimple.Status 200) ->
  fst (StartSimple.poll h n i) = StartSimple.Done false
  /\ count is_request (snd (StartSimple.poll h n i)) = n
  /\ count is_sleep (snd (StartSimple.poll h n i)) = n.
Proof.
  intros Hquiet. revert i. induction n as [|n IH]; intros i Hnever.
  - cbn. auto.
  - rewrite poll_step.
    destruct (StartSimple.answered_200 (StartSimple.health h i)) eqn:Hready.
    + apply ready_iff in Hready. exfalso.
      apply (Hnever 0%nat); [lia|]. rewrite Nat.add_0_r. exact Hready.
    + rewrite Hquiet.
      destruct (IH (S i)) as (Hres & Hreq & Hsleep).
      { intros k Hk. replace (S i + k)%nat with (i + S k)%nat by lia.
        apply Hnever. lia. }
      cbn [fst snd count is_request is_sleep]. rewrite Hres, Hreq, Hsleep.
      auto.
Qed.

Lemma poll_first_ready (h : StartSimple.host) (n i k : nat) :
  (forall j, StartSimple.sleep_interrupted h j = false) ->
  (k < n)%nat ->
  StartSimple.health h (i + k) = StartSimple.Status 200 ->
  (forall j, (j < k)%nat -> StartSimple.health h (i + j) <> StartSimple.Status 200) ->
  fst (StartSimple.poll h n i) = StartSimple.Done true
  /\ count is_request (snd (StartSimple.poll h n i)) = S k
  /\ count is_sleep (snd (StartSimple.poll h n i)) = k.
Proof.
  intros Hquiet. revert i k. induction n as [|n IH]; intros i k Hk Hready Hfirst;
    [lia|].
  rewrite poll_step.
  destruct (StartSimple.answered_200 (StartSimple.health h i)) eqn:Hnow.
  - apply ready_iff in Hnow.
    destruct k as [|k]; [cbn; auto|].
    exfalso. apply (Hfirst 0%nat); [lia|]. rewrite Nat.add_0_r. exact Hnow.
  - destruct k as [|k].
    + rewrite Nat.add_0_r in Hready. apply ready_iff in Hready. congruence.
    + rewrite Hquiet.
      destruct (IH (S i) k) as (Hres & Hreq & Hsleep).
      * lia.
      * replace (S i + k)%nat with (i + S k)%nat by lia. exact Hready.
      * intros j Hj. replace (S i + j)%nat with (i + S j)%nat by lia.
        apply Hfirst. lia.
      * cbn [fst snd count is_request is_sleep]. rewrite Hres, Hreq, Hsleep.
        auto.
Qed.

(** The first attempt below [n] that is answered 200, if there is one. *)
Lemma first_ready_or_never (h : StartSimple.host) (n i : nat) :
  (exists k, (k < n)%nat
             /\ StartSimple.health h (i + k) = StartSimple.Status 200
             /\ forall j, (j < k)%nat ->
                  StartSimple.health h (i + j) <> StartSimple.Status 200)
  \/ (forall k, (k < n)%nat ->
        StartSimple.health h (i + k) <> StartSimple.Status 200).
Proof.
  induction n as [|n [(k & Hk & Hready & Hfirst)|Hnever]].
  - right. intros k Hk. lia.
  - left. exists k. split; [lia|]. auto.
  - destruct (StartSimple.answered_200 (StartSimple.health h (i + n))) eqn:Hnow.
    + apply ready_iff in Hnow. left. exists n. split; [lia|]. auto.
    + right. intros k Hk Hready.
      destruct (Nat.eq_dec k n) as [->|Hne].
      * apply ready_iff in Hready. congruence.
      * apply (Hnever k); [lia | exact Hready].
Qed.

Lemma poll_trace (h : StartSimple.host) (n i : nat) :
  Forall waits_only (snd (StartSimple.poll h n i))
  /\ (count is_request (snd (StartSimple.poll h n i)) <= n)%nat
  /\ (count is_sleep (snd (StartSimple.poll h n i)) <= n)%nat
  /\ (forall code, fst (StartSimple.poll h n i) <> StartSimple.SystemExit code)
  /\ (forall what, fst (StartSimple.poll h n i) <> StartSimple.Uncaught what)
  /\ (fst (StartSimple.poll h n i) = StartSimple.KeyboardInterrupt ->
      exists j, StartSimple.sleep_interrupted h j = true).
Proof.
  revert i. induction n as [|n IH]; intros i.
  - cbn. repeat split; try discriminate; auto.
    repeat constructor.
  - rewrite poll_step.
    destruct (StartSimple.answered_200 (StartSimple.health h i)).
    + cbn. repeat split; try discriminate; try lia. repeat constructor.
    + destruct (StartSimple.sleep_interrupted h i) eqn:Hint.
      * cbn. repeat split; try discriminate; try lia; eauto.
        repeat constructor.
      * destruct (IH (S i)) as (Hall & Hreq & Hsleep & Hexit & Hcrash & Hki).
        cbn [fst snd count is_request is_sleep].
        repeat split; try assumption; try lia.
        repeat constructor; assumption.
Qed.

Lemma wait_for_backend_run (h : StartSimple.host) :
  StartSimple.wait_for_backend h
  = (fst (StartSimple.poll h 20 0),
     StartSimple.Stdout "⏳ Waiting for backend to start..."
     :: snd (StartSimple.poll h 20 0)).
Proof. apply (seq_print _ (StartSimple.poll h 20 0)). Qed.

(** X24: when no Ctrl+C arrives, [wait_for_backend] returns true exactly when
    one of the first 20 health checks is answered with status 200.  It then
    has made one request more than it has slept, the answered request being
    the last; when none is answered 200 it returns false after 20 requests
    and 20 one-second sleeps. *)
Theorem wait_for_backend_polls (h : StartSimple.host) :
  (forall j, StartSimple.sleep_interrupted h j = false) ->
  (fst (StartSimple.wait_for_backend h) = StartSimple.Done true
   <-> exists k, (k < 20)%nat /\ StartSimple.health h k = StartSimple.Status 200)
  /\ (fst (StartSimple.wait_for_backend h) = StartSimple.Done false
      <-> forall k, (k < 20)%nat ->
            StartSimple.health h k <> StartSimple.Status 200)
  /\ (forall k,
        (k < 20)%nat ->
        StartSimple.health h k = StartSimple.Status 200 ->
        (forall j, (j < k)%nat ->
           StartSimple.health h j <> StartSimple.Status 200) ->
        count is_request (snd (StartSimple.wait_for_backend h)) = S k
        /\ count is_sleep (snd (StartSimple.wait_for_backend h)) = k)
  /\ ((forall k, (k < 20)%nat ->
         StartSimple.health h k <> StartSimple.Status 200) ->
      count is_request (snd (StartSimple.wait_for_backend h)) = 20%nat
      /\ count is_sleep (snd (StartSimple.wait_for_backend h)) = 20%nat).
Proof.
  intros Hquiet.
  pose proof (first_ready_or_never h 20 0) as Hcases.
  pose proof (fun k => poll_first_ready h 20 0 k Hquiet) as Hready.
  pose proof (poll_never_ready h 20 0 Hquiet) as Hnever.
  rewrite wait_for_backend_run.
  generalize dependent (StartSimple.poll h 20 0). intros polled Hready Hnever.
  cbn [fst snd count is_request is_sleep Nat.add] in *.
  split; [|split; [|split]].
  - split.
    + intros Htrue. destruct Hcases as [(k & Hk & Hk200 & _)|Hno]; [eauto|].
      destruct (Hnever Hno) as (Hfalse & _). congruence.
    + intros (k & Hk & Hk200).
      destruct Hcases as [(k' & Hk' & Hk200' & Hfirst)|Hno].
      * apply (Hready k'); assumption.
      * exfalso. apply (Hno k); assumption.
  - split.
    + intros Hfalse. destruct Hcases as [(k & Hk & Hk200 & Hfirst)|Hno]; [|exact Hno].
      destruct (Hready k Hk Hk200 Hfirst) as (Htrue & _). congruence.
    + intros Hno. apply Hnever. exact Hno.
  - intros k Hk Hk200 Hfirst.
    destruct (Hready k Hk Hk200 Hfirst) as (_ & Hreq & Hsleep). auto.
  - intros Hno. destruct (Hnever Hno) as (_ & Hreq & Hsleep). auto.
Qed.

(** The backend of the example host answers at the third check. *)
Lemma wait_for_backend_polls_witness :
  fst (StartSimple.wait_for_backend example_host) = StartSimple.Done true
  /\ count is_request (snd (StartSimple.wait_for_backend example_host)) = 3%nat
  /\ count is_sleep (snd (StartSimple.wait_for_backend example_host)) = 2%nat.
Proof.
  destruct (wait_for_backend_polls example_host (fun _ => eq_refl))
    as (Htrue & _ & Hcount & _).
  split.
  - apply Htrue. exists 2%nat. split; [lia | reflexivity].
  - apply (Hcount 2%nat); [lia | reflexivity |].
    intros j Hj. destruct j as [|[|j]]; [discriminate | discriminate | lia].
Defined.

(** ** The whole startup *)

Lemma check_python_version_cases (h : StartSimple.host) :
  (supported (StartSimple.version_info h)
   /\ exists line,
        StartSimple.check_python_version h
        = (StartSimple.Done tt, [ StartSimple.Stdout line ]))
  \/ (~ supported (StartSimple.version_info h)
      /\ StartSimple.check_python_version h
         = (StartSimple.SystemExit 1,
            [ StartSimple.Stdout "❌ Python 3.9 or higher is required" ])).
Proof.
  unfold supported, StartSimple.check_python_version, StartSimple.as_tuple.
  cbn [StartSimple.tuple_lt].
  destruct (Z.eqb_spec (StartSimple.major (StartSimple.version_info h)) 3)
    as [Hmajor|Hmajor].
  - destruct (Z.eqb_spec (StartSimple.minor (StartSimple.version_info h)) 9)
      as [Hminor|Hminor].
    + left. split; [lia|]. eexists. reflexivity.
    + destruct (Z.ltb_spec (StartSimple.minor (StartSimple.version_info h)) 9).
      * right. split; [lia|]. reflexivity.
      * left. split; [lia|]. eexists. reflexivity.
  - destruct (Z.ltb_spec (StartSimple.major (StartSimple.version_info h)) 3).
    + right. split; [lia|]. reflexivity.
    + left. split; [lia|]. eexists. reflexivity.
Qed.

Lemma poll_true_ready (h : StartSimple.host) (n i : nat) :
  fst (StartSimple.poll h n i) = StartSimple.Done true ->
  exists k, (k < n)%nat /\ StartSimple.health h (i + k) = StartSimple.Status 200.
Proof.
  revert i. induction n as [|n IH]; intros i; [discriminate|].
  rewrite poll_step.
  destruct (StartSimple.answered_200 (StartSimple.health h i)) eqn:Hnow.
  - intros _. apply ready_iff in Hnow. exists 0%nat. split; [lia|].
    rewrite Nat.add_0_r. exact Hnow.
  - destruct (StartSimple.sleep_interrupted h i); [discriminate|].
    cbn [fst]. intros Htrue. destruct (IH (S i) Htrue) as (k & Hk & Hready).
    exists (S k). split; [lia|].
    replace (i + S k)%nat with (S i + k)%nat by lia. exact Hready.
Qed.

Ltac script_step :=
  cbn [StartSimple.seq StartSimple.bind StartSimple.print StartSimple.emit
       StartSimple.exit StartSimple.ret StartSimple.except_KeyboardInterrupt
       StartSimple.open_frontend fst snd negb app].

(** What [main] does once the checks have passed, from the result and the
    actions of the polling. *)
Lemma main_started (h : StartSimple.host) :
  checks_pass h ->
  exists before cmd,
    Forall preparing before
    /\ StartSimple.main h
       = (match fst (StartSimple.poll h 20 0) with
          | StartSimple.Done true => StartSimple.Done tt
          | StartSimple.Done false => StartSimple.SystemExit 1
          | StartSimple.SystemExit code => StartSimple.SystemExit code
          | StartSimple.KeyboardInterrupt => StartSimple.Done tt
          | StartSimple.Uncaught what => StartSimple.Uncaught what
          end,
          before
          ++ StartSimple.Popen cmd
          :: StartSimple.Stdout "⏳ Waiting for backend to start..."
          :: snd (StartSimple.poll h 20 0)
          ++ match fst (StartSimple.poll h 20 0) with
             | StartSimple.Done true =>
                 [ StartSimple.Stdout
                     "🌐 Opening frontend at http://127.0.0.1:8000/static/index.html";
                   StartSimple.OpenBrowser "http://127.0.0.1:8000/static/index.html";
                   StartSimple.Stdout
                     (StartSimple.newline +:+ "🎉 Application started successfully!");
                   StartSimple.Stdout "📊 Backend API: http://127.0.0.1:8000";
                   StartSimple.Stdout
                     "🎮 Frontend: http://127.0.0.1:8000/static/index.html";
                   StartSimple.Stdout "📚 API Docs: http://127.0.0.1:8000/docs";
                   StartSimple.Stdout
                     (StartSimple.newline +:+ "Press Ctrl+C to stop the server") ]
                 ++ (if StartSimple.wait_interrupted h then
                       [ StartSimple.Stdout
                           (StartSimple.newline +:+ "🛑 Shutting down...");
                         StartSimple.Terminate; StartSimple.Wait;
                         StartSimple.Stdout "✅ Server stopped" ]
                     else [ StartSimple.Wait ])
             | StartSimple.Done false => [ StartSimple.Terminate ]
             | StartSimple.KeyboardInterrupt =>
                 [ StartSimple.Stdout
                     (StartSimple.newline +:+ "🛑 Shutting down...");
                   StartSimple.Terminate; StartSimple.Wait;
                   StartSimple.Stdout "✅ Server stopped" ]
             | _ => []
             end).
Proof.
  intros (Hversion & Himport & Henv & Hdotenv & (key & Hkey & Hnonempty)
          & Halembic & Hstarts).
  destruct (check_python_version_cases h) as [(_ & line & Hcheck)|(Hold & _)];
    [|contradiction].
  unfold StartSimple.main, StartSimple.check_basic_dependencies,
    StartSimple.check_environment, StartSimple.setup_database,
    StartSimple.start_backend, StartSimple.wait_for_backend.
  rewrite Hcheck, Himport, Henv, Hdotenv, Hkey, Hstarts.
  destruct key as [|ch key]; [contradiction|].
  destruct (StartSimple.poll h 20 0) as [polled t].
  destruct (StartSimple.alembic h) as [| | |what] eqn:Hal;
    [| | |exfalso; apply (Halembic what); reflexivity];
    destruct polled as [[|]| | |]; destruct (StartSimple.wait_interrupted h);
    script_step;
    exists [ StartSimple.Stdout "🎮 Clash Royale Win Predictor AI - Simple Startup";
             StartSimple.Stdout (StartSimple.times "=" 55);
             StartSimple.Stdout line;
             StartSimple.Stdout "✅ Core dependencies found";
             StartSimple.LoadDotenv;
             StartSimple.Stdout "✅ Environment variables configured";
             StartSimple.Stdout "🗄️  Setting up database...";
             StartSimple.RunAlembic;
             StartSimple.Stdout
               match StartSimple.alembic h with
               | StartSimple.Migrated => "✅ Database migrations completed"
               | StartSimple.CalledProcessError =>
                   "⚠️  Database setup skipped (already exists)"
               | _ => "⚠️  Alembic not found, database will be created automatically"
               end;
             StartSimple.Stdout "🚀 Starting backend server..." ];
    eexists; rewrite Hal;
    (split; [once (repeat constructor) | cbn [app]]);
    rewrite <- ?app_assoc, ?app_nil_r; reflexivity.
Qed.

(** What [main] does when a check fails: it stops before it starts the
    backend, with exit status 1 or, in three cases nothing handles, with an
    exception (dotenv missing, an unforeseen error of the migration, a
    backend process that cannot be started). *)
Lemma main_stopped (h : StartSimple.host) :
  ~ checks_pass h ->
  Forall preparing (snd (StartSimple.main h))
  /\ (fst (StartSimple.main h) = StartSimple.SystemExit 1
      \/ exists what,
           fst (StartSimple.main h) = StartSimple.Uncaught what
           /\ (StartSimple.dotenv_installed h = false
               \/ StartSimple.alembic h = StartSimple.OtherError what
               \/ StartSimple.backend_starts h = false)).
Proof.
  intros Hfail.
  unfold StartSimple.main.
  destruct (check_python_version_cases h) as [(Hversion & line & ->)|(_ & ->)];
    [|script_step; split; [once (repeat constructor) | left; reflexivity]].
  unfold StartSimple.check_basic_dependencies.
  destruct (StartSimple.import_error h) as [e|] eqn:Himport;
    [script_step; split; [once (repeat constructor) | left; reflexivity]|].
  unfold StartSimple.check_environment.
  destruct (StartSimple.env_file_exists h) eqn:Henv;
    [|script_step; split; [once (repeat constructor) | left; reflexivity]].
  destruct (StartSimple.dotenv_installed h) eqn:Hdotenv;
    [|script_step; split;
      [once (repeat constructor)
      | right; eexists; split; [reflexivity | auto]]].
  destruct (StartSimple.api_key h) as [[|ch key]|] eqn:Hkey;
    [script_step; split; [once (repeat constructor) | left; reflexivity]
    | |script_step; split; [once (repeat constructor) | left; reflexivity]].
  unfold StartSimple.setup_database.
  destruct (StartSimple.alembic h) as [| | |what] eqn:Hal;
    [| | |script_step; split;
          [once (repeat constructor)
          | right; eexists; split; [reflexivity | auto]]];
    unfold StartSimple.start_backend;
    (destruct (StartSimple.backend_starts h) eqn:Hstarts;
     [|script_step; split;
       [once (repeat constructor)
       | right; eexists; split; [reflexivity | auto]]]);
    exfalso; apply Hfail;
    (repeat split; auto; [eexists; split; [exact Hkey | discriminate]
                         | intros what; rewrite Hal; discriminate]).
Qed.

Lemma checks_pass_or_not (h : StartSimple.host) : checks_pass h \/ ~ checks_pass h.
Proof.
  unfold checks_pass.
  destruct (check_python_version_cases h) as [(Hversion & _)|(Hold & _)];
    [|right; tauto].
  destruct (StartSimple.import_error h); [right; intuition discriminate|].
  destruct (StartSimple.env_file_exists h); [|right; intuition discriminate].
  destruct (StartSimple.dotenv_installed h); [|right; intuition discriminate].
  destruct (StartSimple.backend_starts h); [|right; intuition discriminate].
  destruct (StartSimple.api_key h) as [[|ch key]|].
  - right. intros (_ & _ & _ & _ & (key & Hkey & Hne) & _).
    injection Hkey as <-. contradiction.
  - destruct (StartSimple.alembic h) as [| | |what].
    + left. repeat split; auto. eexists; split; [reflexivity|discriminate].
      all: intros; discriminate.
    + left. repeat split; auto. eexists; split; [reflexivity|discriminate].
      all: intros; discriminate.
    + left. repeat split; auto. eexists; split; [reflexivity|discriminate].
      all: intros; discriminate.
    + right. intros (_ & _ & _ & _ & _ & Hal & _). apply (Hal what). reflexivity.
  - right. intros (_ & _ & _ & _ & (key & Hkey & _) & _). discriminate Hkey.
Qed.

Lemma not_in_preparing (e : StartSimple.event) (run : list StartSimple.event) :
  Forall preparing run -> ~ preparing e -> ~ In e run.
Proof.
  intros Hall Hnot Hin. apply Hnot.
  apply (proj1 (List.Forall_forall preparing run) Hall e Hin).
Qed.

Lemma not_in_waits_only (e : StartSimple.event) (run : list StartSimple.event) :
  Forall waits_only run -> ~ waits_only e -> ~ In e run.
Proof.
  intros Hall Hnot Hin. apply Hnot.
  apply (proj1 (List.Forall_forall waits_only run) Hall e Hin).
Qed.

(** X25: [main] opens the browser only on the frontend's address and only in
    a run in which every check has passed, the backend has been started, and
    one of the first 20 health checks has been answered with status 200. *)
Theorem browser_opened_only_when_ready (h : StartSimple.host) (url : string) :
  In (StartSimple.OpenBrowser url) (snd (StartSimple.main h)) ->
  url = "http://127.0.0.1:8000/static/index.html"
  /\ checks_pass h
  /\ (exists k, (k < 20)%nat /\ StartSimple.health h k = StartSimple.Status 200)
  /\ exists cmd, In (StartSimple.Popen cmd) (snd (StartSimple.main h)).
Proof.
  intros Hopen.
  destruct (checks_pass_or_not h) as [Hpass|Hfail].
  - destruct (main_started h Hpass) as (before & cmd & Hbefore & Hmain).
    destruct (poll_trace h 20 0) as (Hpoll & _).
    rewrite Hmain in Hopen |- *. cbn [snd] in Hopen |- *.
    apply in_app_or in Hopen. destruct Hopen as [Hopen|Hopen];
      [exfalso; revert Hopen; apply not_in_preparing; [assumption | cbn; tauto]|].
    cbn [In] in Hopen. destruct Hopen as [Hopen|[Hopen|Hopen]];
      [discriminate Hopen | discriminate Hopen |].
    apply in_app_or in Hopen. destruct Hopen as [Hopen|Hopen];
      [exfalso; revert Hopen; apply not_in_waits_only; [assumption | cbn; tauto]|].
    destruct (fst (StartSimple.poll h 20 0)) as [[|]| | |] eqn:Hres;
      try (cbn [In] in Hopen; intuition discriminate).
    split.
    + apply in_app_or in Hopen. destruct Hopen as [Hopen|Hopen].
      * cbn [In] in Hopen.
        repeat match goal with
               | H : _ \/ _ |- _ => destruct H as [H|H]; try discriminate H
               end; [|contradiction].
        injection Hopen as <-. reflexivity.
      * destruct (StartSimple.wait_interrupted h); cbn [In] in Hopen;
          intuition discriminate.
    + split; [exact Hpass|]. split.
      * destruct (poll_true_ready h 20 0 Hres) as (k & Hk & Hready).
        exists k. auto.
      * exists cmd. apply in_or_app. right. left. reflexivity.
  - destruct (main_stopped h Hfail) as (Hquiet & _).
    exfalso. revert Hopen. apply not_in_preparing; [assumption | cbn; tauto].
Qed.

Lemma example_host_passes : checks_pass example_host.
Proof.
  unfold checks_pass, supported. cbn.
  repeat split; try reflexivity.
  - right. lia.
  - exists "key". split; [reflexivity | discriminate].
  - intros what. discriminate.
Qed.

(** The run of the example host opens the browser. *)
Lemma browser_opened_only_when_ready_witness :
  In (StartSimple.OpenBrowser "http://127.0.0.1:8000/static/index.html")
    (snd (StartSimple.main example_host))
  /\ checks_pass example_host
  /\ exists k, (k < 20)%nat
               /\ StartSimple.health example_host k = StartSimple.Status 200.
Proof.
  assert (Hopen : In (StartSimple.OpenBrowser
                        "http://127.0.0.1:8000/static/index.html")
                    (snd (StartSimple.main example_host))).
  { vm_compute. do 21 right. left. reflexivity. }
  split; [exact Hopen|].
  destruct (browser_opened_only_when_ready example_host _ Hopen)
    as (_ & Hpass & Hready & _).
  split; [exact Hpass | exact Hready].
Defined.

(** X26: [main] never leaves a backend it has started running behind a
    failed or interrupted startup.  In every run that starts the backend,
    either the backend is terminated (it did not answer 200 within 20 checks,
    or Ctrl+C arrived while sleeping or waiting), or the script ends normally
    after waiting for the backend process to end. *)
Theorem backend_never_left_running (h : StartSimple.host) (cmd : list string) :
  In (StartSimple.Popen cmd) (snd (StartSimple.main h)) ->
  In StartSimple.Terminate (snd (StartSimple.main h))
  \/ (fst (StartSimple.main h) = StartSimple.Done tt
      /\ StartSimple.wait_interrupted h = false
      /\ In StartSimple.Wait (snd (StartSimple.main h))).
Proof.
  intros Hstarted.
  destruct (checks_pass_or_not h) as [Hpass|Hfail].
  - destruct (main_started h Hpass) as (before & cmd' & Hbefore & Hmain).
    destruct (poll_trace h 20 0) as (_ & _ & _ & Hexit & Hcrash & _).
    rewrite Hmain. cbn [fst snd].
    destruct (fst (StartSimple.poll h 20 0)) as [[|]|code| |what].
    + destruct (StartSimple.wait_interrupted h).
      * left. apply in_or_app. right. do 2 right.
        apply in_or_app. right. apply in_or_app. right.
        right. left. reflexivity.
      * right. split; [reflexivity|]. split; [reflexivity|].
        apply in_or_app. right. do 2 right.
        apply in_or_app. right. apply in_or_app. right.
        left. reflexivity.
    + left. apply in_or_app. right. do 2 right.
      apply in_or_app. right. left. reflexivity.
    + exfalso. apply (Hexit code). reflexivity.
    + left. apply in_or_app. right. do 2 right.
      apply in_or_app. right. right. left. reflexivity.
    + exfalso. apply (Hcrash what). reflexivity.
  - destruct (main_stopped h Hfail) as (Hquiet & _).
    exfalso. revert Hstarted. apply not_in_preparing; [assumption | cbn; tauto].
Qed.

(** The backend of the example host is started and waited for. *)
Lemma backend_never_left_running_witness :
  In (StartSimple.Popen
        [ "/usr/bin/python3"; "-m"; "uvicorn"; "app.main:app"; "--host";
          "127.0.0.1"; "--port"; "8000"; "--reload" ])
    (snd (StartSimple.main example_host))
  /\ (In StartSimple.Terminate (snd (StartSimple.main example_host))
      \/ (fst (StartSimple.main example_host) = StartSimple.Done tt
          /\ StartSimple.wait_interrupted example_host = false
          /\ In StartSimple.Wait (snd (StartSimple.main example_host)))).
Proof.
  assert (Hstarted : In (StartSimple.Popen
                           [ "/usr/bin/python3"; "-m"; "uvicorn"; "app.main:app";
                             "--host"; "127.0.0.1"; "--port"; "8000"; "--reload" ])
                       (snd (StartSimple.main example_host))).
  { vm_compute. do 10 right. left. reflexivity. }
  split; [exact Hstarted|].
  exact (backend_never_left_running example_host _ Hstarted).
Defined.

(** X27: when nothing unforeseen happens (dotenv is installed, the migration
    ends in one of the three ways the script handles, the backend process can
    be started and no Ctrl+C arrives while sleeping), [main] ends normally
    exactly when the version is supported, the imports succeed, the .env file
    exists and sets a non-empty API key, and one of the first 20 health
    checks is answered 200; in every other case it exits with status 1.  A
    migration that fails or finds no Alembic does not stop the startup. *)
Theorem startup_exit_status (h : StartSimple.host) :
  StartSimple.dotenv_installed h = true ->
  (forall what, StartSimple.alembic h <> StartSimple.OtherError what) ->
  StartSimple.backend_starts h = true ->
  (forall j, StartSimple.sleep_interrupted h j = false) ->
  let ready :=
    supported (StartSimple.version_info h)
    /\ StartSimple.import_error h = None
    /\ StartSimple.env_file_exists h = true
    /\ (exists key, StartSimple.api_key h = Some key /\ key <> EmptyString)
    /\ (exists k, (k < 20)%nat
                  /\ StartSimple.health h k = StartSimple.Status 200) in
  (fst (StartSimple.main h) = StartSimple.Done tt <-> ready)
  /\ (fst (StartSimple.main h) = StartSimple.SystemExit 1 <-> ~ ready)
  /\ (fst (StartSimple.main h) = StartSimple.Done tt
      \/ fst (StartSimple.main h) = StartSimple.SystemExit 1).
Proof.
  intros Hdotenv Halembic Hstarts Hquiet. cbv zeta.
  destruct (checks_pass_or_not h) as [Hpass|Hfail].
  - destruct (main_started h Hpass) as (before & cmd & _ & Hmain).
    destruct Hpass as (Hversion & Himport & Henv & _ & Hkey & _ & _).
    rewrite Hmain. cbn [fst].
    destruct (first_ready_or_never h 20 0) as [(k & Hk & Hready & Hfirst)|Hnever].
    + destruct (poll_first_ready h 20 0 k Hquiet Hk Hready Hfirst) as (-> & _).
      cbn [Nat.add] in Hready.
      assert (Hall : exists k, (k < 20)%nat
                               /\ StartSimple.health h k = StartSimple.Status 200)
        by eauto.
      split; [tauto|]. split; [|auto].
      split; [discriminate|]. intros Hnot. exfalso. apply Hnot. tauto.
    + destruct (poll_never_ready h 20 0 Hquiet Hnever) as (-> & _).
      cbn [Nat.add] in Hnever.
      assert (Hnone : ~ exists k, (k < 20)%nat
                                  /\ StartSimple.health h k = StartSimple.Status 200).
      { intros (k & Hk & Hready). apply (Hnever k Hk Hready). }
      split; [|split; [|auto]].
      * split; [discriminate|]. intros (_ & _ & _ & _ & Hready). contradiction.
      * split; [|reflexivity]. intros _ (_ & _ & _ & _ & Hready). contradiction.
  - destruct (main_stopped h Hfail) as (_ & [Hexit|(what & Hcrash & Hwhy)]).
    + rewrite Hexit.
      assert (Hnot : ~ (supported (StartSimple.version_info h)
                        /\ StartSimple.import_error h = None
                        /\ StartSimple.env_file_exists h = true
                        /\ (exists key, StartSimple.api_key h = Some key
                                        /\ key <> EmptyString)
                        /\ (exists k, (k < 20)%nat
                                      /\ StartSimple.health h k
                                         = StartSimple.Status 200))).
      { intros (Hversion & Himport & Henv & Hkey & _). apply Hfail.
        unfold checks_pass. tauto. }
      split; [|split; [|auto]].
      * split; [discriminate | contradiction].
      * split; [intros _; exact Hnot | reflexivity].
    + exfalso. destruct Hwhy as [Hwhy|[Hwhy|Hwhy]].
      * congruence.
      * apply (Halembic what Hwhy).
      * congruence.
Qed.

(** The example host: the startup ends normally. *)
Lemma startup_exit_status_witness :
  fst (StartSimple.main example_host) = StartSimple.Done tt.
Proof.
  destruct (startup_exit_status example_host eq_refl
              (fun what H => match H with eq_refl => I end : False)
              eq_refl (fun _ => eq_refl))
    as (Hdone & _).
  cbv zeta in Hdone. apply Hdone.
  destruct example_host_passes as (Hversion & Himport & Henv & _ & Hkey & _).
  repeat split; try assumption.
  exists 2%nat. split; [lia | reflexivity].
Defined.
